(** * LoaderVirtualCarrierCommandGroup: the virtual-carrier command group

    A shallow embedding of
    [sentio_prober_control/Sentio/CommandGroups/LoaderVirtualCarrierCommandGroup.py].

    The class holds no state of its own.  Every method talks to two
    collaborators: the transport [self.comm] ([send], [read_line]) and the
    session controller [self.prober] ([wait_complete]).  A call is modelled
    as a computation over the trace of collaborator calls made so far; what a
    collaborator answers is given by an environment that may look at the
    whole history.  Python exceptions are an explicit [Raise] outcome. *)

From Stdlib Require Import ZArith String Ascii List Bool Lia.
From Stdlib Require Import PrimFloat Uint63 DecimalString DecimalPos.
Import ListNotations.
Open Scope string_scope.
Open Scope Z_scope.

(* ===================================================================== *)
(** ** Python values and built-ins used by the module *)
(* ===================================================================== *)

Module Py.

(** The exceptions that can occur.  [KeyError], [IndexError] and
    [ValueError] come from the built-ins the module calls; [CommError] and
    [ProberException] stand for whatever the collaborators raise. *)
Inductive exn : Type :=
| KeyError (key : string)
| IndexError
| ValueError (text : string)
| CommError (detail : string)
| ProberException (detail : string).

Inductive result (A : Type) : Type :=
| Ok (a : A)
| Raise (e : exn).
Arguments Ok {A} a.
Arguments Raise {A} e.

(** [s.split(sep)] for a one-character separator: one piece more than there
    are separators, empty pieces kept, [''.split(sep) == ['']]. *)
Fixpoint split (sep : ascii) (s : string) : list string :=
  match s with
  | EmptyString => [EmptyString]
  | String c rest =>
      if Ascii.eqb c sep then EmptyString :: split sep rest
      else match split sep rest with
           | piece :: pieces => String c piece :: pieces
           | [] => [String c EmptyString]
           end
  end.

(** [sep.join(pieces)] *)
Fixpoint join (sep : string) (pieces : list string) : string :=
  match pieces with
  | [] => ""
  | [p] => p
  | p :: rest => p ++ sep ++ join sep rest
  end.

(** [col[i]] for a non-negative constant index. *)
Definition getitem (col : list string) (i : nat) : result string :=
  match nth_error col i with
  | Some x => Ok x
  | None => Raise IndexError
  end.

(** [f"{n}"] for an [int]. *)
Definition str_int (n : Z) : string := NilZero.string_of_int (Z.to_int n).

(** [f"{b}"] for a [bool]. *)
Definition str_bool (b : bool) : string := if b then "True" else "False".

(** The white space [int] and [float] skip around ASCII text: tab, line
    feed, vertical tab, form feed, carriage return and space. *)
Definition is_space (c : ascii) : bool :=
  let n := nat_of_ascii c in
  ((9 <=? n)%nat && (n <=? 13)%nat) || (n =? 32)%nat.

(** The characters [str.isspace] accepts in the ASCII range, which
    [str.split()] without a separator splits on: the six above and the
    separators with codes 28 to 31. *)
Definition isspace (c : ascii) : bool :=
  let n := nat_of_ascii c in
  ((9 <=? n)%nat && (n <=? 13)%nat) || ((28 <=? n)%nat && (n <=? 32)%nat).

Definition is_digit (c : ascii) : bool :=
  let n := nat_of_ascii c in (48 <=? n)%nat && (n <=? 57)%nat.

Definition digit_val (c : ascii) : Z := Z.of_nat (nat_of_ascii c) - 48.

Fixpoint lstrip (cs : list ascii) : list ascii :=
  match cs with
  | c :: rest => if is_space c then lstrip rest else cs
  | [] => []
  end.

Definition strip (cs : list ascii) : list ascii :=
  rev (lstrip (rev (lstrip cs))).

(** Decimal digits, single underscores allowed between two digits. *)
Fixpoint digits_val (cs : list ascii) (acc : Z) (after_digit : bool) : option Z :=
  match cs with
  | [] => if after_digit then Some acc else None
  | c :: rest =>
      if is_digit c then digits_val rest (10 * acc + digit_val c) true
      else if Ascii.eqb c "_" then
             if after_digit then digits_val rest acc false else None
           else None
  end.

(** [int(text)] on ASCII text: surrounding white space is dropped, one sign
    is allowed, then decimal digits. *)
Definition int (text : string) : result Z :=
  let body := strip (list_ascii_of_string text) in
  let signed :=
    match body with
    | "-"%char :: ds => option_map Z.opp (digits_val ds 0 false)
    | "+"%char :: ds => digits_val ds 0 false
    | ds => digits_val ds 0 false
    end in
  match signed with
  | Some n => Ok n
  | None => Raise (ValueError text)
  end.

(** Python [Enum] classes: the members and their names.  [E[key]] is the
    member whose name is exactly [key]; no such member is a [KeyError]. *)
Class Enum (E : Type) : Type := {
  members : list E;
  name : E -> string
}.

Definition enum_getitem {E : Type} `{Enum E} (key : string) : result E :=
  match find (fun m => String.eqb (name m) key) members with
  | Some m => Ok m
  | None => Raise (KeyError key)
  end.

End Py.
Import Py.

(* ===================================================================== *)
(** ** Collaborators *)
(* ===================================================================== *)

(** What the module uses of a [Response]: [cmd_id()] and [message()]. *)
Record Response : Type := mkResponse {
  cmd_id : Z;
  message : string
}.

(** The code outside this file that the module depends on:
    [Response.check_resp], the three enumerations of
    [Sentio.Enumerations], and the built-in [float]. *)
Class Externals : Type := {
  check_resp : string -> result Response;
  VirtualCarrierInitFlags : Type;
  toSentioAbbr : VirtualCarrierInitFlags -> string;
  VirtualCarrierStepProcessingState : Type;
  LoaderStation : Type;
  state_enum :: Enum VirtualCarrierStepProcessingState;
  station_enum :: Enum LoaderStation;
  float_of_str : string -> result float
}.

(** One call on a collaborator.  [EvWaitComplete id None] is
    [self.prober.wait_complete(id)], called without a timeout argument. *)
Inductive event : Type :=
| EvSend (line : string)
| EvReadLine
| EvWaitComplete (id : Z) (timeout : option Z).

Definition trace : Type := list event.

(** The environment answers each call from the history before it.  [None]
    from [on_send] is a normal return; [wait_complete] returns a response,
    which no caller in this module looks at. *)
Record Env : Type := mkEnv {
  on_send : trace -> string -> option exn;
  on_read_line : trace -> result string;
  on_wait_complete : trace -> Z -> option Z -> result Response
}.

(** Computations that call collaborators and may raise. *)
Definition M (A : Type) : Type := Env -> trace -> result A * trace.

Definition ret {A} (a : A) : M A := fun _ t => (Ok a, t).

Definition bind {A B} (m : M A) (k : A -> M B) : M B :=
  fun env t =>
    match m env t with
    | (Ok a, t') => k a env t'
    | (Raise e, t') => (Raise e, t')
    end.

Definition lift {A} (r : result A) : M A := fun _ t => (r, t).

(** [try: m except: return fallback] with a bare [except]. *)
Definition try_except {A} (m : M A) (fallback : A) : M A :=
  fun env t =>
    match m env t with
    | (Ok a, t') => (Ok a, t')
    | (Raise _, t') => (Ok fallback, t')
    end.

Declare Scope vc_scope.
Delimit Scope vc_scope with vc.
Notation "x <- m ;; k" := (bind m (fun x => k))
  (at level 61, m at next level, right associativity) : vc_scope.
Notation "m ;; k" := (bind m (fun _ => k))
  (at level 61, right associativity) : vc_scope.
Open Scope vc_scope.

Definition outcome_of_raise (o : option exn) : result unit :=
  match o with None => Ok tt | Some e => Raise e end.

(** [self.comm.send(line)] *)
Definition send (line : string) : M unit :=
  fun env t => (outcome_of_raise (on_send env t line), (t ++ [EvSend line])%list).

(** [self.comm.read_line()] *)
Definition read_line : M string :=
  fun env t => (on_read_line env t, (t ++ [EvReadLine])%list).

(** [self.prober.wait_complete(id)] or [self.prober.wait_complete(id, timeout)] *)
Definition wait_complete (id : Z) (timeout : option Z) : M Response :=
  fun env t => (on_wait_complete env t id timeout,
                (t ++ [EvWaitComplete id timeout])%list).

(** Run a call from an empty history. *)
Definition run {A} (m : M A) (env : Env) : result A * trace := m env [].
Definition returned {A} (m : M A) (env : Env) : result A := fst (run m env).
Definition calls {A} (m : M A) (env : Env) : trace := snd (run m env).

(* ===================================================================== *)
(** ** The command group *)
(* ===================================================================== *)

Section CommandGroup.

Context `{X : Externals}.

(** The tuple both [initialize] and [next_step] build:
    [(state, id, station, slot, temp, probecard_idx)]. *)
Definition ProcessingStep : Type :=
  (VirtualCarrierStepProcessingState * string * LoaderStation * Z * float * Z)%type.

(** The six statements [state = VirtualCarrierStepProcessingState[col[0]]]
    ... [probecard_idx = int(col[5])], in the order they are executed; the
    first one that raises ends the decoding. *)
Definition step_of_columns (col : list string) : result ProcessingStep :=
  match getitem col 0 with Raise e => Raise e | Ok c0 =>
  match enum_getitem (E := VirtualCarrierStepProcessingState) c0 with Raise e => Raise e | Ok state =>
  match getitem col 1 with Raise e => Raise e | Ok id =>
  match getitem col 2 with Raise e => Raise e | Ok c2 =>
  match enum_getitem (E := LoaderStation) c2 with Raise e => Raise e | Ok station =>
  match getitem col 3 with Raise e => Raise e | Ok c3 =>
  match Py.int c3 with Raise e => Raise e | Ok slot =>
  match getitem col 4 with Raise e => Raise e | Ok c4 =>
  match float_of_str c4 with Raise e => Raise e | Ok temp =>
  match getitem col 5 with Raise e => Raise e | Ok c5 =>
  match Py.int c5 with Raise e => Raise e | Ok probecard_idx =>
  Ok (state, id, station, slot, temp, probecard_idx)
  end end end end end end end end end end end.

(** The loop [for it in steps_as_str: col = it.split(' '); ...;
    steps.append(...)] of [initialize], started with the steps collected so
    far. *)
Fixpoint steps_loop (steps_as_str : list string) (steps : list ProcessingStep)
  : result (list ProcessingStep) :=
  match steps_as_str with
  | [] => Ok steps
  | it :: rest =>
      match step_of_columns (split " " it) with
      | Ok step => steps_loop rest (steps ++ [step])%list
      | Raise e => Raise e
      end
  end.

(** [list]; the name avoids a clash with the type of lists. *)
Definition list_ : M (list string) :=
  try_except
    (send "loader:vc:list" ;;
     line <- read_line ;;
     resp <- lift (check_resp line) ;;
     ret (split "," (message resp)))
    [].

Definition select (vc_name : string) : M Response :=
  send ("loader:vc:select " ++ vc_name) ;;
  line <- read_line ;;
  lift (check_resp line).

Definition start_load_first (cleanup : bool) : M Response :=
  send ("loader:vc:start_load_first " ++ str_bool cleanup) ;;
  line <- read_line ;;
  resp <- lift (check_resp line) ;;
  ret resp.

Definition initialize (carrier_name : string) (mode : VirtualCarrierInitFlags)
    (timeout : Z) : M (list ProcessingStep) :=
  send ("loader:vc:start_initialize " ++ carrier_name ++ ", " ++ toSentioAbbr mode) ;;
  line <- read_line ;;
  resp <- lift (check_resp line) ;;
  wait_complete (cmd_id resp) None ;;
  lift (steps_loop (split "," (message resp)) []).

Definition next_step (timeout : Z) : M ProcessingStep :=
  send "loader:vc:start_next_step" ;;
  line <- read_line ;;
  resp <- lift (check_resp line) ;;
  send ("wait_complete " ++ str_int (cmd_id resp) ++ ", " ++ str_int timeout) ;;
  line' <- read_line ;;
  _ <- lift (check_resp line') ;;
  lift (step_of_columns (split "," (message resp))).

Definition load_first (cleanup : bool) (timeout : Z) : M unit :=
  resp <- start_load_first cleanup ;;
  send ("wait_complete " ++ str_int (cmd_id resp) ++ ", " ++ str_int timeout) ;;
  line <- read_line ;;
  _ <- lift (check_resp line) ;;
  ret tt.

Definition start_load_next : M Response :=
  send "loader:vc:start_load_next" ;;
  line <- read_line ;;
  resp <- lift (check_resp line) ;;
  ret resp.

Definition load_next (timeout : Z) : M unit :=
  resp <- start_load_next ;;
  send ("wait_complete " ++ str_int (cmd_id resp) ++ ", " ++ str_int timeout) ;;
  line <- read_line ;;
  _ <- lift (check_resp line) ;;
  ret tt.

(** Every way of calling a method of the class. *)
Inductive call : Type :=
| CallList
| CallSelect (vc_name : string)
| CallStartLoadFirst (cleanup : bool)
| CallInitialize (carrier_name : string) (mode : VirtualCarrierInitFlags) (timeout : Z)
| CallNextStep (timeout : Z)
| CallLoadFirst (cleanup : bool) (timeout : Z)
| CallStartLoadNext
| CallLoadNext (timeout : Z).

(** The collaborator calls a method call makes, whatever it returns. *)
Definition call_trace (c : call) (env : Env) : trace :=
  match c with
  | CallList => calls list_ env
  | CallSelect vc_name => calls (select vc_name) env
  | CallStartLoadFirst cleanup => calls (start_load_first cleanup) env
  | CallInitialize carrier_name mode timeout =>
      calls (initialize carrier_name mode timeout) env
  | CallNextStep timeout => calls (next_step timeout) env
  | CallLoadFirst cleanup timeout => calls (load_first cleanup timeout) env
  | CallStartLoadNext => calls start_load_next env
  | CallLoadNext timeout => calls (load_next timeout) env
  end.

End CommandGroup.

(* ===================================================================== *)
(** ** Properties of traces *)
(* ===================================================================== *)

(** The calls made on the transport, in order: [true] for a [send],
    [false] for a [read_line]. *)
Fixpoint transport_calls (t : trace) : list bool :=
  match t with
  | [] => []
  | EvSend _ :: rest => true :: transport_calls rest
  | EvReadLine :: rest => false :: transport_calls rest
  | EvWaitComplete _ _ :: rest => transport_calls rest
  end.

(** [send], [read_line], [send], [read_line], ...: a send is expected first
    and after every read, a read after every send. *)
Fixpoint alternates (expect_send : bool) (l : list bool) : bool :=
  match l with
  | [] => true
  | is_send :: rest => Bool.eqb is_send expect_send && alternates (negb expect_send) rest
  end.

(** The lines sent over the transport, in order. *)
Fixpoint sent_lines (t : trace) : list string :=
  match t with
  | [] => []
  | EvSend line :: rest => line :: sent_lines rest
  | _ :: rest => sent_lines rest
  end.

(** The calls made on the session controller, in order. *)
Fixpoint wait_calls (t : trace) : list (Z * option Z) :=
  match t with
  | [] => []
  | EvWaitComplete id timeout :: rest => (id, timeout) :: wait_calls rest
  | _ :: rest => wait_calls rest
  end.

(** A raw [wait_complete] command line. *)
Definition is_wait_line (line : string) : bool := prefix "wait_complete " line.

(* ===================================================================== *)
(** ** Concrete collaborators for running the module *)
(* ===================================================================== *)

Module Sample.

(** Modelled from the spec: [VirtualCarrierStepProcessingState] of
    [Sentio.Enumerations] is not part of this file; these are the members
    the specification names. *)
Inductive State : Type := Processing | Done.

(** Modelled from the spec: [LoaderStation] of [Sentio.Enumerations] is not
    part of this file; these are the members the specification names. *)
Inductive Station : Type := Station1 | Station2 | Station3.

(** Modelled from the spec: [VirtualCarrierInitFlags] of
    [Sentio.Enumerations] is not part of this file; [Start] is the default
    mode the specification names, serialized by its own name. *)
Inductive InitFlags : Type := Start.

#[export] Instance State_enum : Enum State := {|
  members := [Processing; Done];
  name := fun m => match m with Processing => "Processing" | Done => "Done" end
|}.

#[export] Instance Station_enum : Enum Station := {|
  members := [Station1; Station2; Station3];
  name := fun m =>
    match m with
    | Station1 => "Station1" | Station2 => "Station2" | Station3 => "Station3"
    end
|}.

(** Modelled from the spec: [Response.check_resp] is not part of this
    file.  A reply line carries a status indicator, the correlation id and
    the payload; here they are written [status,cmd_id,payload], and any
    status but [0] is a remote failure. *)
Definition check_resp_model (line : string) : result Response :=
  match split "," line with
  | status :: id :: payload =>
      match Py.int status, Py.int id with
      | Ok 0, Ok n => Ok {| cmd_id := n; message := join "," payload |}
      | Ok _, Ok _ => Raise (ProberException line)
      | Raise e, _ => Raise e
      | _, Raise e => Raise e
      end
  | _ => Raise (ProberException line)
  end.

(** A run of digits, single underscores allowed between two digits, read
    on from the value [acc] and the count [n] of digits read so far: the
    value, the count, and the text left over. *)
Fixpoint digitpart (cs : list ascii) (acc : Z) (n : Z) : Z * Z * list ascii :=
  match cs with
  | c :: rest =>
      if is_digit c then digitpart rest (10 * acc + digit_val c) (n + 1)
      else if Ascii.eqb c "_" && (0 <? n) then
             match rest with
             | d :: _ => if is_digit d then digitpart rest acc n else (acc, n, cs)
             | [] => (acc, n, cs)
             end
           else (acc, n, cs)
  | [] => (acc, n, [])
  end.

Definition lower (c : ascii) : ascii :=
  let n := nat_of_ascii c in
  if (65 <=? n)%nat && (n <=? 90)%nat then ascii_of_nat (n + 32) else c.

Definition is_word (w : string) (cs : list ascii) : bool :=
  String.eqb (string_of_list_ascii (map lower cs)) w.

(** The text after [e] or [E]: a sign and at least one digit. *)
Definition exponent (cs : list ascii) : option Z :=
  let '(negative, ds) :=
    match cs with
    | "-"%char :: ds => (true, ds)
    | "+"%char :: ds => (false, ds)
    | ds => (false, ds)
    end in
  match digitpart ds 0 0 with
  | (v, n, []) => if 0 <? n then Some (if negative then - v else v) else None
  | _ => None
  end.

(** An unsigned decimal number, [digits . digits e exponent] with at least
    one digit before the exponent: the digits read as one integer [m] and
    the power of ten [e], for the value [m * 10 ^ e]. *)
Definition decimal (cs : list ascii) : option (Z * Z) :=
  let '(m1, n1, r1) := digitpart cs 0 0 in
  let '(m, n2, r2) :=
    match r1 with
    | "."%char :: r => digitpart r m1 0
    | _ => (m1, 0, r1)
    end in
  if 0 <? n1 + n2 then
    match r2 with
    | [] => Some (m, - n2)
    | c :: r =>
        if Ascii.eqb (lower c) "e" then
          option_map (fun e => (m, e - n2)) (exponent r)
        else None
    end
  else None.

(** The double nearest to [m * 10 ^ e] for [0 < m], ties to the even
    significand: the quotient is cut to 53 bits, or to a multiple of
    [2 ^ -1074] below the normal range, and rounded on the remainder; a
    result of [2 ^ 1024] or more is infinite. *)
Definition nearest_double (m e : Z) : float :=
  let num := if 0 <=? e then m * 10 ^ e else m in
  let den := if 0 <=? e then 1 else 10 ^ (- e) in
  let scaled := fun k => if 0 <=? k then (num, den * 2 ^ k) else (num * 2 ^ (- k), den) in
  let k1 := Z.log2 num - Z.log2 den - 53 in
  let q1 := let '(a, b) := scaled k1 in a / b in
  let k := Z.max (if 2 ^ 53 <=? q1 then k1 + 1 else k1) (-1074) in
  let '(a, b) := scaled k in
  let q := a / b in
  let r := a mod b in
  let q' := if (b <? 2 * r) || ((2 * r =? b) && Z.odd q) then q + 1 else q in
  if 2 ^ 1024 <=? q' * 2 ^ k then infinity
  else ldshiftexp (of_uint63 (Uint63.of_Z q')) (Uint63.of_Z (k + 2101)).

(** The built-in [float] on ASCII text: surrounding white space is
    dropped, one sign is allowed, then [inf], [infinity] or [nan] in any
    case, or a decimal number, which gives the nearest double. *)
Definition float_model (text : string) : result float :=
  let body := strip (list_ascii_of_string text) in
  let '(negative, ds) :=
    match body with
    | "-"%char :: ds => (true, ds)
    | "+"%char :: ds => (false, ds)
    | ds => (false, ds)
    end in
  let signed := fun x : float => if negative then PrimFloat.opp x else x in
  if is_word "inf" ds || is_word "infinity" ds then Ok (signed infinity)
  else if is_word "nan" ds then Ok nan
  else match decimal ds with
       | Some (m, e) =>
           Ok (signed (if m =? 0 then zero else nearest_double m e))
       | None => Raise (ValueError text)
       end.

#[export] Instance externals : Externals := {|
  check_resp := check_resp_model;
  VirtualCarrierInitFlags := InitFlags;
  toSentioAbbr := fun m => match m with Start => "Start" end;
  VirtualCarrierStepProcessingState := State;
  LoaderStation := Station;
  state_enum := State_enum;
  station_enum := Station_enum;
  float_of_str := float_model
|}.

(** How many calls of each kind a history holds. *)
Definition sends_so_far (t : trace) : nat := length (sent_lines t).
Definition reads_so_far (t : trace) : nat :=
  length (filter negb (transport_calls t)).
Definition waits_so_far (t : trace) : nat := length (wait_calls t).

(** A scripted instrument: the n-th [send], [read_line] and [wait_complete]
    get the n-th entry of their script; past its end a [send] and a
    [wait_complete] return normally and a [read_line] fails. *)
Definition scripted (sends : list (option exn)) (reads : list (result string))
    (waits : list (result Response)) : Env := {|
  on_send := fun t _ => nth (sends_so_far t) sends None;
  on_read_line := fun t => nth (reads_so_far t) reads (Raise (CommError "no reply"));
  on_wait_complete := fun t id _ =>
    nth (waits_so_far t) waits (Ok {| cmd_id := id; message := "" |})
|}.

(** An instrument that accepts everything and sends the given replies. *)
Definition replying (reads : list string) : Env :=
  scripted [] (map Ok reads) [].

End Sample.


(* ===================================================================== *)
(** ** Vocabulary of the statements *)
(* ===================================================================== *)

(** At history [t] the command [cmd] is sent without error, the reply
    [line] is read, and validation turns it into [resp]. *)
Definition acknowledged `{X : Externals} (env : Env) (t : trace) (cmd line : string)
    (resp : Response) : Prop :=
  on_send env t cmd = None /\
  on_read_line env (t ++ [EvSend cmd])%list = Ok line /\
  check_resp line = Ok resp.

(** A record of [initialize], split on [' '], decodes to the step. *)
Definition decodes_to `{X : Externals} (record : string) (step : ProcessingStep) : Prop :=
  step_of_columns (split " " record) = Ok step.

(** Python's [record.split()] without a separator: the maximal runs of
    characters that are not white space.  [word] holds the characters of
    the run being read, last one first.  The source never calls it; it is
    the splitting rule the specification words describe. *)
Fixpoint split_whitespace_from (cs : list ascii) (word : list ascii) : list string :=
  let flush (rest : list string) :=
    match word with
    | [] => rest
    | _ => string_of_list_ascii (rev word) :: rest
    end in
  match cs with
  | [] => flush []
  | c :: cs' =>
      if isspace c then flush (split_whitespace_from cs' [])
      else split_whitespace_from cs' (c :: word)
  end.

Definition split_whitespace (s : string) : list string :=
  split_whitespace_from (list_ascii_of_string s) [].

(** The wait command line of [next_step], [load_first] and [load_next]. *)
Definition wait_line (id timeout : Z) : string :=
  "wait_complete " ++ str_int id ++ ", " ++ str_int timeout.

(** How often the character [sep] occurs in [s]: [s.count(sep)]. *)
Fixpoint count_char (sep : ascii) (s : string) : nat :=
  match s with
  | EmptyString => 0%nat
  | String c rest =>
      if Ascii.eqb c sep then S (count_char sep rest) else count_char sep rest
  end.

(** How many [read_line] calls a history holds. *)
Definition read_calls (t : trace) : nat := length (filter negb (transport_calls t)).

(** The collaborator call [ev], made at history [t], did not go through:
    the send raised, the read raised or its reply did not validate, or the
    completion wait raised. *)
Definition call_failed `{X : Externals} (env : Env) (t : trace) (ev : event) : bool :=
  match ev with
  | EvSend line =>
      match on_send env t line with Some _ => true | None => false end
  | EvReadLine =>
      match on_read_line env t with
      | Ok line => match check_resp line with Ok _ => false | Raise _ => true end
      | Raise _ => true
      end
  | EvWaitComplete id timeout =>
      match on_wait_complete env t id timeout with Ok _ => false | Raise _ => true end
  end.

(* ===================================================================== *)
(** ** Facts about the built-ins *)
(* ===================================================================== *)

Lemma split_cons (sep : ascii) (s : string) :
  exists piece pieces, split sep s = piece :: pieces.
Proof.
  induction s as [|c rest IH]; simpl.
  - now exists "", [].
  - destruct (Ascii.eqb c sep).
    + now exists "", (split sep rest).
    + destruct IH as (p & ps & ->). now exists (String c p), ps.
Qed.

Lemma split_not_nil (sep : ascii) (s : string) : split sep s <> [].
Proof. destruct (split_cons sep s) as (p & ps & ->). discriminate. Qed.

Lemma enum_getitem_ok {E : Type} `{Enum E} (key : string) (m : E) :
  enum_getitem key = Ok m -> In m members /\ name m = key.
Proof.
  unfold enum_getitem.
  destruct (find _ members) as [m'|] eqn:Hfind; [|discriminate].
  intros [= <-]. apply find_some in Hfind as [Hin Heq].
  split; [assumption|]. now apply String.eqb_eq.
Qed.

Lemma enum_getitem_unknown {E : Type} `{Enum E} (key : string) :
  (forall m, In m members -> name m <> key) ->
  enum_getitem (E := E) key = Raise (KeyError key).
Proof.
  intros Hno. unfold enum_getitem.
  destruct (find _ members) as [m|] eqn:Hfind; [|reflexivity].
  apply find_some in Hfind as [Hin Heq].
  apply String.eqb_eq in Heq. now elim (Hno m Hin).
Qed.

Lemma enum_getitem_known {E : Type} `{Enum E} (key : string) :
  (exists m, In m members /\ name m = key) ->
  exists m, enum_getitem (E := E) key = Ok m.
Proof.
  intros (m & Hin & Hname). unfold enum_getitem.
  destruct (find _ members) as [m'|] eqn:Hfind; [now exists m'|].
  eapply find_none in Hfind; [|exact Hin].
  rewrite Hname, String.eqb_refl in Hfind. discriminate.
Qed.

(* ===================================================================== *)
(** ** Running the methods *)
(* ===================================================================== *)

Section Steps.

Context {A B : Type} (env : Env) (t : trace).

Lemma run_send_ok (line : string) (k : unit -> M B) :
  on_send env t line = None ->
  bind (send line) k env t = k tt env (t ++ [EvSend line])%list.
Proof. intros H. unfold bind, send. now rewrite H. Qed.

Lemma run_send_raise (line : string) (k : unit -> M B) (e : exn) :
  on_send env t line = Some e ->
  bind (send line) k env t = (Raise e, (t ++ [EvSend line])%list).
Proof. intros H. unfold bind, send. now rewrite H. Qed.

Lemma run_read_ok (line : string) (k : string -> M B) :
  on_read_line env t = Ok line ->
  bind read_line k env t = k line env (t ++ [EvReadLine])%list.
Proof. intros H. unfold bind, read_line. now rewrite H. Qed.

Lemma run_read_raise (k : string -> M B) (e : exn) :
  on_read_line env t = Raise e ->
  bind read_line k env t = (Raise e, (t ++ [EvReadLine])%list).
Proof. intros H. unfold bind, read_line. now rewrite H. Qed.

Lemma run_wait_ok (id : Z) (timeout : option Z) (done : Response)
    (k : Response -> M B) :
  on_wait_complete env t id timeout = Ok done ->
  bind (wait_complete id timeout) k env t =
    k done env (t ++ [EvWaitComplete id timeout])%list.
Proof. intros H. unfold bind, wait_complete. now rewrite H. Qed.

Lemma run_lift_ok (r : result A) (a : A) (k : A -> M B) :
  r = Ok a -> bind (lift r) k env t = k a env t.
Proof. now intros ->. Qed.

Lemma run_lift_raise (r : result A) (e : exn) (k : A -> M B) :
  r = Raise e -> bind (lift r) k env t = (Raise e, t).
Proof. now intros ->. Qed.

Lemma run_bind_bind {C : Type} (m : M A) (f : A -> M B) (g : B -> M C) :
  bind (bind m f) g env t = bind m (fun a => bind (f a) g) env t.
Proof. unfold bind. destruct (m env t) as [[a|e] t']; reflexivity. Qed.

End Steps.

(** Advance a run by one collaborator answer known from [H]. *)
Ltac answered H :=
  cbv beta; repeat (rewrite run_bind_bind; cbv beta);
  first
    [ erewrite run_send_ok by exact H
    | erewrite run_read_ok by exact H
    | erewrite run_lift_ok by first [exact H | reflexivity]
    | erewrite run_wait_ok by exact H
    | erewrite run_send_raise by exact H
    | erewrite run_read_raise by exact H
    | erewrite run_lift_raise by first [exact H | reflexivity] ].

Ltac answered_ack H :=
  let Hs := fresh "Hsend" in
  let Hr := fresh "Hread" in
  let Hc := fresh "Hcheck" in
  pose proof H as (Hs & Hr & Hc);
  answered Hs; answered Hr; answered Hc.

(** Unfold a method down to the calls on the environment. *)
Ltac unfold_method :=
  unfold call_trace; unfold returned, calls, run;
  unfold list_, select, initialize, next_step, load_first, load_next;
  unfold start_load_first, start_load_next;
  unfold try_except, bind, ret, lift, send, read_line, wait_complete,
    outcome_of_raise; simpl.

(** Split on what the environment, or validation, answers next. *)
Ltac next_answer :=
  match goal with
  | |- context [match on_send ?env ?t ?l with _ => _ end] =>
      destruct (on_send env t l) eqn:?; simpl
  | |- context [match on_read_line ?env ?t with _ => _ end] =>
      destruct (on_read_line env t) eqn:?; simpl
  | |- context [match on_wait_complete ?env ?t ?i ?o with _ => _ end] =>
      destruct (on_wait_complete env t i o) eqn:?; simpl
  | |- context [match check_resp ?l with _ => _ end] =>
      destruct (check_resp l) eqn:?; simpl
  end.

Section Methods.

Context `{X : Externals}.

Lemma list_run_acknowledged (env : Env) (line : string) (resp : Response) :
  acknowledged env [] "loader:vc:list" line resp ->
  run list_ env =
    (Ok (split "," (message resp)), [EvSend "loader:vc:list"; EvReadLine]).
Proof.
  intros H. unfold run, list_, try_except. answered_ack H. reflexivity.
Qed.

Lemma list_never_raises (env : Env) : exists names, returned list_ env = Ok names.
Proof. unfold_method. repeat next_answer; eauto. Qed.

Lemma initialize_run_completed (env : Env) (carrier_name : string)
    (mode : VirtualCarrierInitFlags) (timeout : Z) (line : string)
    (resp done : Response) :
  let start := "loader:vc:start_initialize " ++ carrier_name ++ ", " ++ toSentioAbbr mode in
  acknowledged env [] start line resp ->
  on_wait_complete env [EvSend start; EvReadLine] (cmd_id resp) None = Ok done ->
  run (initialize carrier_name mode timeout) env =
    (steps_loop (split "," (message resp)) [],
     [EvSend start; EvReadLine; EvWaitComplete (cmd_id resp) None]).
Proof.
  intros start H Hwait. unfold run, initialize.
  answered_ack H. answered Hwait. reflexivity.
Qed.

Lemma next_step_run_completed (env : Env) (timeout : Z)
    (line line' : string) (resp resp' : Response) :
  acknowledged env [] "loader:vc:start_next_step" line resp ->
  acknowledged env [EvSend "loader:vc:start_next_step"; EvReadLine]
    (wait_line (cmd_id resp) timeout) line' resp' ->
  run (next_step timeout) env =
    (step_of_columns (split "," (message resp)),
     [EvSend "loader:vc:start_next_step"; EvReadLine;
      EvSend (wait_line (cmd_id resp) timeout); EvReadLine]).
Proof.
  intros H H'. unfold run, next_step.
  answered_ack H. answered_ack H'. reflexivity.
Qed.

Lemma load_first_run_acknowledged (env : Env) (cleanup : bool) (timeout : Z)
    (line : string) (resp : Response) :
  let start := "loader:vc:start_load_first " ++ str_bool cleanup in
  acknowledged env [] start line resp ->
  run (load_first cleanup timeout) env =
    (send (wait_line (cmd_id resp) timeout) ;;
     line' <- read_line ;;
     _ <- lift (check_resp line') ;;
     ret tt) env [EvSend start; EvReadLine].
Proof.
  intros start H. unfold run, load_first, start_load_first.
  answered_ack H. reflexivity.
Qed.

Lemma load_next_run_acknowledged (env : Env) (timeout : Z)
    (line : string) (resp : Response) :
  acknowledged env [] "loader:vc:start_load_next" line resp ->
  run (load_next timeout) env =
    (send (wait_line (cmd_id resp) timeout) ;;
     line' <- read_line ;;
     _ <- lift (check_resp line') ;;
     ret tt) env [EvSend "loader:vc:start_load_next"; EvReadLine].
Proof.
  intros H. unfold run, load_next, start_load_next.
  answered_ack H. reflexivity.
Qed.

End Methods.

(* ===================================================================== *)
(** ** Decoding step records *)
(* ===================================================================== *)

Section Decoding.

Context `{X : Externals}.

Lemma step_of_columns_ok (col : list string)
    (state : VirtualCarrierStepProcessingState) (id : string)
    (station : LoaderStation) (slot : Z) (temp : float) (probecard_idx : Z) :
  step_of_columns col = Ok (state, id, station, slot, temp, probecard_idx) <->
  exists c0 c2 c3 c4 c5 rest,
    col = c0 :: id :: c2 :: c3 :: c4 :: c5 :: rest /\
    enum_getitem c0 = Ok state /\
    enum_getitem c2 = Ok station /\
    Py.int c3 = Ok slot /\
    float_of_str c4 = Ok temp /\
    Py.int c5 = Ok probecard_idx.
Proof.
  split.
  - destruct col as [|c0 [|c1 [|c2 [|c3 [|c4 [|c5 rest]]]]]];
      unfold step_of_columns; cbn [getitem nth_error];
      repeat match goal with
             | |- context [match ?r with Ok _ => _ | Raise _ => _ end] =>
                 destruct r eqn:?
             end;
      try discriminate.
    intros [= <- <- <- <- <- <-].
    now exists c0, c2, c3, c4, c5, rest.
  - intros (c0 & c2 & c3 & c4 & c5 & rest & -> & H0 & H2 & H3 & H4 & H5).
    unfold step_of_columns; cbn [getitem nth_error].
    now rewrite H0, H2, H3, H4, H5.
Qed.

Lemma step_of_columns_unknown_state (c0 : string) (rest : list string) :
  (forall m : VirtualCarrierStepProcessingState, In m members -> name m <> c0) ->
  step_of_columns (c0 :: rest) = Raise (KeyError c0).
Proof.
  intros Hno. unfold step_of_columns; cbn [getitem nth_error].
  now rewrite (enum_getitem_unknown c0 Hno).
Qed.

Lemma step_of_columns_unknown_station (c0 id c2 : string) (rest : list string) :
  (exists m : VirtualCarrierStepProcessingState, In m members /\ name m = c0) ->
  (forall m : LoaderStation, In m members -> name m <> c2) ->
  step_of_columns (c0 :: id :: c2 :: rest) = Raise (KeyError c2).
Proof.
  intros Hstate Hno. unfold step_of_columns; cbn [getitem nth_error].
  destruct (enum_getitem_known c0 Hstate) as [state ->].
  now rewrite (enum_getitem_unknown c2 Hno).
Qed.

(** The loop appends to [steps] one step per record, in order. *)
Lemma steps_loop_ok (records : list string) :
  forall steps result,
    steps_loop records steps = Ok result <->
    exists decoded, result = (steps ++ decoded)%list /\ Forall2 decodes_to records decoded.
Proof.
  induction records as [|it rest IH]; intros steps result; simpl.
  - split.
    + intros [= <-]. exists []. now rewrite app_nil_r.
    + intros (decoded & -> & Hall). inversion Hall. now rewrite app_nil_r.
  - destruct (step_of_columns (split " " it)) as [step|e] eqn:Hit.
    + rewrite IH. split.
      * intros (decoded & -> & Hall). exists (step :: decoded). split.
        -- now rewrite <- app_assoc.
        -- now constructor.
      * intros (decoded & -> & Hall).
        inversion Hall as [|? step' ? decoded' Hstep Hrest]; subst.
        unfold decodes_to in Hstep. rewrite Hit in Hstep.
        injection Hstep as <-. exists decoded'. split.
        -- now rewrite <- app_assoc.
        -- assumption.
    + split; [discriminate|].
      intros (decoded & -> & Hall).
      inversion Hall as [|? step' ? decoded' Hstep Hrest]; subst.
      unfold decodes_to in Hstep. rewrite Hit in Hstep. discriminate.
Qed.

(** The loop stops at the first record that does not decode. *)
Lemma steps_loop_raises (before : list string) :
  forall decoded steps record after e,
    Forall2 decodes_to before decoded ->
    step_of_columns (split " " record) = Raise e ->
    steps_loop (before ++ record :: after) steps = Raise e.
Proof.
  induction before as [|it rest IH]; intros decoded steps record after e Hall Hbad.
  - simpl. now rewrite Hbad.
  - inversion Hall as [|? step ? decoded' Hstep Hrest]; subst.
    simpl. unfold decodes_to in Hstep. rewrite Hstep. now apply (IH decoded').
Qed.

End Decoding.

(* ===================================================================== *)
(** ** [list] *)
(* ===================================================================== *)

(** C3.  When the exchange of [list] goes through with response [resp],
    [list] returns the payload split on [','], so the payload ["A,B,C"]
    gives [["A"; "B"; "C"]]; when the send raises, the read raises or the
    validation raises, whatever the error, [list] returns the empty list;
    [list] itself never raises. *)
Theorem list_splits_payload_or_swallows_error `{X : Externals} (env : Env) :
  (forall line resp,
      acknowledged env [] "loader:vc:list" line resp ->
      returned list_ env = Ok (split "," (message resp)) /\
      (message resp = "A,B,C" -> returned list_ env = Ok ["A"; "B"; "C"])) /\
  (forall e,
      on_send env [] "loader:vc:list" = Some e ->
      returned list_ env = Ok []) /\
  (forall e,
      on_send env [] "loader:vc:list" = None ->
      on_read_line env [EvSend "loader:vc:list"] = Raise e ->
      returned list_ env = Ok []) /\
  (forall line e,
      on_send env [] "loader:vc:list" = None ->
      on_read_line env [EvSend "loader:vc:list"] = Ok line ->
      check_resp line = Raise e ->
      returned list_ env = Ok []) /\
  (exists names, returned list_ env = Ok names).
Proof.
  repeat split.
  - unfold returned. now rewrite (list_run_acknowledged env line resp H).
  - intros Hmsg. unfold returned.
    now rewrite (list_run_acknowledged env line resp H), Hmsg.
  - intros e Hsend. unfold returned, run, list_, try_except.
    answered Hsend. reflexivity.
  - intros e Hsend Hread. unfold returned, run, list_, try_except.
    answered Hsend. answered Hread. reflexivity.
  - intros line e Hsend Hread Hcheck. unfold returned, run, list_, try_except.
    answered Hsend. answered Hread. answered Hcheck. reflexivity.
  - apply list_never_raises.
Qed.

Lemma list_splits_payload_or_swallows_error_witness :
  returned (list_ (X := Sample.externals)) (Sample.replying ["0,4,A,B,C"])
    = Ok ["A"; "B"; "C"] /\
  returned (list_ (X := Sample.externals))
    (Sample.scripted [Some (CommError "socket closed")] [] []) = Ok [] /\
  returned (list_ (X := Sample.externals))
    (Sample.scripted [] [Raise (CommError "timed out")] []) = Ok [] /\
  returned (list_ (X := Sample.externals)) (Sample.replying ["5,4,no carrier"])
    = Ok [].
Proof.
  split; [|split; [|split]].
  - apply (proj1 (list_splits_payload_or_swallows_error
                    (X := Sample.externals) (Sample.replying ["0,4,A,B,C"])))
      with (line := "0,4,A,B,C") (resp := {| cmd_id := 4; message := "A,B,C" |}).
    + repeat split.
    + reflexivity.
  - apply (proj1 (proj2 (list_splits_payload_or_swallows_error
                    (X := Sample.externals)
                    (Sample.scripted [Some (CommError "socket closed")] [] []))))
      with (e := CommError "socket closed").
    reflexivity.
  - apply (proj1 (proj2 (proj2 (list_splits_payload_or_swallows_error
                    (X := Sample.externals)
                    (Sample.scripted [] [Raise (CommError "timed out")] [])))))
      with (e := CommError "timed out"); reflexivity.
  - apply (proj1 (proj2 (proj2 (proj2 (list_splits_payload_or_swallows_error
                    (X := Sample.externals)
                    (Sample.replying ["5,4,no carrier"]))))))
      with (line := "5,4,no carrier") (e := ProberException "5,4,no carrier");
      reflexivity.
Defined.

(** C10.  A call of [list] whose exchange goes through returns at least
    one name, and an empty payload gives the one-element list [[""]]; so
    when [list] returns the empty list the exchange did not go through. *)
Theorem list_success_is_never_empty `{X : Externals} (env : Env) :
  (forall line resp,
      acknowledged env [] "loader:vc:list" line resp ->
      (exists first others, returned list_ env = Ok (first :: others)) /\
      (message resp = "" -> returned list_ env = Ok [""])) /\
  (returned list_ env = Ok [] ->
   forall line resp, ~ acknowledged env [] "loader:vc:list" line resp).
Proof.
  split.
  - intros line resp H. unfold returned.
    rewrite (list_run_acknowledged env line resp H). simpl. split.
    + destruct (split_cons "," (message resp)) as (p & ps & ->). eauto.
    + now intros ->.
  - intros Hnil line resp H. unfold returned in Hnil.
    rewrite (list_run_acknowledged env line resp H) in Hnil. simpl in Hnil.
    injection Hnil as Hnil. now apply split_not_nil in Hnil.
Qed.

Lemma list_success_is_never_empty_witness :
  returned (list_ (X := Sample.externals)) (Sample.replying ["0,4,"]) = Ok [""] /\
  ~ acknowledged (X := Sample.externals) (Sample.replying ["5,4,"]) []
      "loader:vc:list" "5,4," {| cmd_id := 4; message := "" |}.
Proof.
  split.
  - apply (proj1 (list_success_is_never_empty
                    (X := Sample.externals) (Sample.replying ["0,4,"])))
      with (line := "0,4,") (resp := {| cmd_id := 4; message := "" |}).
    + repeat split.
    + reflexivity.
  - apply (proj2 (list_success_is_never_empty
                    (X := Sample.externals) (Sample.replying ["5,4,"]))).
    reflexivity.
Defined.

(* ===================================================================== *)
(** ** [select] *)
(* ===================================================================== *)

(** C8.  For every carrier name, the only line [select] sends is
    ["loader:vc:select "] followed by the name, and once that line is sent
    and a reply read, [select] returns exactly what validation makes of the
    reply. *)
Theorem select_sends_name_and_returns_validated `{X : Externals}
    (env : Env) (vc_name : string) :
  sent_lines (calls (select vc_name) env) = ["loader:vc:select " ++ vc_name] /\
  (forall line,
      on_send env [] ("loader:vc:select " ++ vc_name) = None ->
      on_read_line env [EvSend ("loader:vc:select " ++ vc_name)] = Ok line ->
      run (select vc_name) env =
        (check_resp line, [EvSend ("loader:vc:select " ++ vc_name); EvReadLine])).
Proof.
  split.
  - unfold_method. repeat next_answer; reflexivity.
  - intros line Hsend Hread. unfold run, select.
    answered Hsend. answered Hread. reflexivity.
Qed.

Lemma select_sends_name_and_returns_validated_witness :
  run (select (X := Sample.externals) "Lot 7") (Sample.replying ["0,0,"]) =
    (Ok {| cmd_id := 0; message := "" |},
     [EvSend "loader:vc:select Lot 7"; EvReadLine]).
Proof.
  exact (proj2 (select_sends_name_and_returns_validated
                  (X := Sample.externals) (Sample.replying ["0,0,"]) "Lot 7")
           "0,0," eq_refl eq_refl).
Defined.

(* ===================================================================== *)
(** ** [load_first] *)
(* ===================================================================== *)

(** C6.  [load_first(cleanup=True, timeout=30)], once its start command
    ["loader:vc:start_load_first True"] is acknowledged with response
    [resp], sends as second line ["wait_complete <cmd_id of resp>, 30"];
    when validation of the reply to that wait command raises, [load_first]
    raises the same error and returns no value. *)
Theorem load_first_true_30_waits_then_raises `{X : Externals}
    (env : Env) (line : string) (resp : Response) :
  acknowledged env [] "loader:vc:start_load_first True" line resp ->
  sent_lines (calls (load_first true 30) env) =
    ["loader:vc:start_load_first True";
     "wait_complete " ++ str_int (cmd_id resp) ++ ", 30"] /\
  (forall line' e,
      on_send env [EvSend "loader:vc:start_load_first True"; EvReadLine]
        ("wait_complete " ++ str_int (cmd_id resp) ++ ", 30") = None ->
      on_read_line env
        [EvSend "loader:vc:start_load_first True"; EvReadLine;
         EvSend ("wait_complete " ++ str_int (cmd_id resp) ++ ", 30")] = Ok line' ->
      check_resp line' = Raise e ->
      returned (load_first true 30) env = Raise e).
Proof.
  intros H.
  pose proof (load_first_run_acknowledged env true 30 line resp H) as Hrun.
  split.
  - unfold calls. rewrite Hrun. unfold_method. repeat next_answer; reflexivity.
  - intros line' e Hsend Hread Hcheck. unfold returned. rewrite Hrun.
    answered Hsend. answered Hread. answered Hcheck. reflexivity.
Qed.

Lemma load_first_true_30_waits_then_raises_witness :
  sent_lines (calls (load_first (X := Sample.externals) true 30)
                (Sample.replying ["0,7,"; "13,7,timeout"])) =
    ["loader:vc:start_load_first True"; "wait_complete 7, 30"] /\
  returned (load_first (X := Sample.externals) true 30)
    (Sample.replying ["0,7,"; "13,7,timeout"]) =
    Raise (ProberException "13,7,timeout").
Proof.
  pose proof (load_first_true_30_waits_then_raises
                (X := Sample.externals)
                (Sample.replying ["0,7,"; "13,7,timeout"])
                "0,7," {| cmd_id := 7; message := "" |}
                (conj eq_refl (conj eq_refl eq_refl))) as [Hsent Hraise].
  split.
  - exact Hsent.
  - exact (Hraise "13,7,timeout" (ProberException "13,7,timeout")
             eq_refl eq_refl eq_refl).
Defined.

(* ===================================================================== *)
(** ** Request/response pairing *)
(* ===================================================================== *)

(** C9.  Whatever method is called, with whatever arguments and whatever
    the collaborators answer, the calls it makes on the transport alternate
    [send], [read_line], [send], [read_line], ... starting with a [send]:
    no second command is sent before the reply to the first is read. *)
Theorem transport_calls_alternate `{X : Externals} (c : call) (env : Env) :
  alternates true (transport_calls (call_trace c env)) = true.
Proof.
  destruct c; unfold_method; repeat next_answer; reflexivity.
Qed.

(* ===================================================================== *)
(** ** Waiting for completion *)
(* ===================================================================== *)

(** C1.  [initialize] does not hand its [timeout] to the completion wait:
    called with [timeout=30] on an acknowledged start whose correlation id
    is 7, it calls [self.prober.wait_complete(7)] with no timeout argument;
    and in general two calls of [initialize] that differ only in the
    timeout make the same collaborator calls and return the same result. *)
Theorem initialize_does_not_pass_timeout :
  run (initialize (X := Sample.externals) "CarrierX" Sample.Start 30)
      (Sample.replying ["0,7,Processing 1 Station1 2 25.5 0"]) =
    (Ok [(Sample.Processing, "1", Sample.Station1, 2, 25.5%float, 0)],
     [EvSend "loader:vc:start_initialize CarrierX, Start"; EvReadLine;
      EvWaitComplete 7 None]) /\
  (forall (X : Externals) (env : Env) (carrier_name : string)
          (mode : VirtualCarrierInitFlags) (timeout timeout' : Z),
      run (initialize carrier_name mode timeout) env =
      run (initialize carrier_name mode timeout') env).
Proof.
  split.
  - reflexivity.
  - intros X env carrier_name mode timeout timeout'. reflexivity.
Qed.

(** C2, as the code has it.  Only [initialize] waits through the session
    controller: it never sends a raw [wait_complete] line, and once its
    start command is acknowledged it calls [wait_complete] once, keyed by
    the correlation id of the start reply.  [load_first],
    [load_next] and [next_step] never call the session controller; once
    their start command is acknowledged they send the line
    ["wait_complete <cmd_id>, <timeout>"] over the transport themselves. *)
Theorem completion_wait_paths `{X : Externals} (env : Env) (timeout : Z) :
  (forall carrier_name mode,
      let start := "loader:vc:start_initialize " ++ carrier_name ++ ", "
                     ++ toSentioAbbr mode in
      existsb is_wait_line
        (sent_lines (calls (initialize carrier_name mode timeout) env)) = false /\
      (forall line resp,
          acknowledged env [] start line resp ->
          map fst (wait_calls (calls (initialize carrier_name mode timeout) env)) =
            [cmd_id resp])) /\
  (forall cleanup,
      let start := "loader:vc:start_load_first " ++ str_bool cleanup in
      wait_calls (calls (load_first cleanup timeout) env) = [] /\
      (forall line resp,
          acknowledged env [] start line resp ->
          sent_lines (calls (load_first cleanup timeout) env) =
            [start; wait_line (cmd_id resp) timeout])) /\
  (wait_calls (calls (load_next timeout) env) = [] /\
   (forall line resp,
       acknowledged env [] "loader:vc:start_load_next" line resp ->
       sent_lines (calls (load_next timeout) env) =
         ["loader:vc:start_load_next"; wait_line (cmd_id resp) timeout])) /\
  (wait_calls (calls (next_step timeout) env) = [] /\
   (forall line resp,
       acknowledged env [] "loader:vc:start_next_step" line resp ->
       sent_lines (calls (next_step timeout) env) =
         ["loader:vc:start_next_step"; wait_line (cmd_id resp) timeout])).
Proof.
  split; [|split; [|split]].
  - intros carrier_name mode start. split.
    + unfold_method. repeat next_answer; reflexivity.
    + intros line resp H. unfold calls, run, initialize. answered_ack H.
      unfold_method. repeat next_answer; reflexivity.
  - intros cleanup start. split.
    + unfold_method. repeat next_answer; reflexivity.
    + intros line resp H. unfold calls.
      rewrite (load_first_run_acknowledged env cleanup timeout line resp H).
      unfold_method. repeat next_answer; reflexivity.
  - split.
    + unfold_method. repeat next_answer; reflexivity.
    + intros line resp H. unfold calls.
      rewrite (load_next_run_acknowledged env timeout line resp H).
      unfold_method. repeat next_answer; reflexivity.
  - split.
    + unfold_method. repeat next_answer; reflexivity.
    + intros line resp H. unfold calls, run, next_step. answered_ack H.
      unfold_method. repeat next_answer; reflexivity.
Qed.

Lemma completion_wait_paths_witness :
  map fst
    (wait_calls (calls (initialize (X := Sample.externals) "CarrierX" Sample.Start 30)
                   (Sample.replying ["0,7,Done 1 Station1 1 20.5 0"]))) = [7] /\
  sent_lines (calls (load_first (X := Sample.externals) false 30)
                (Sample.replying ["0,7,"; "0,7,"])) =
    ["loader:vc:start_load_first False"; "wait_complete 7, 30"] /\
  sent_lines (calls (load_next (X := Sample.externals) 45)
                (Sample.replying ["0,8,"; "0,8,"])) =
    ["loader:vc:start_load_next"; "wait_complete 8, 45"] /\
  sent_lines (calls (next_step (X := Sample.externals) 60)
                (Sample.replying ["0,9,Done,1,Station1,1,20.5,0"; "0,9,"])) =
    ["loader:vc:start_next_step"; "wait_complete 9, 60"].
Proof.
  split; [|split; [|split]].
  - exact (proj2 (proj1 (completion_wait_paths (X := Sample.externals)
                           (Sample.replying ["0,7,Done 1 Station1 1 20.5 0"]) 30)
                    "CarrierX" Sample.Start)
             "0,7,Done 1 Station1 1 20.5 0"
             {| cmd_id := 7; message := "Done 1 Station1 1 20.5 0" |}
             (conj eq_refl (conj eq_refl eq_refl))).
  - exact (proj2 (proj1 (proj2 (completion_wait_paths (X := Sample.externals)
                                  (Sample.replying ["0,7,"; "0,7,"]) 30))
                    false)
             "0,7," {| cmd_id := 7; message := "" |}
             (conj eq_refl (conj eq_refl eq_refl))).
  - exact (proj2 (proj1 (proj2 (proj2 (completion_wait_paths (X := Sample.externals)
                                         (Sample.replying ["0,8,"; "0,8,"]) 45))))
             "0,8," {| cmd_id := 8; message := "" |}
             (conj eq_refl (conj eq_refl eq_refl))).
  - exact (proj2 (proj2 (proj2 (proj2 (completion_wait_paths (X := Sample.externals)
                                         (Sample.replying
                                            ["0,9,Done,1,Station1,1,20.5,0"; "0,9,"])
                                         60))))
             "0,9,Done,1,Station1,1,20.5,0"
             {| cmd_id := 9; message := "Done,1,Station1,1,20.5,0" |}
             (conj eq_refl (conj eq_refl eq_refl))).
Defined.

(** C2 as stated fails: a successful [load_first], and a successful
    [load_next], send a raw [wait_complete] line over the transport and
    make no call on the session controller. *)
Lemma load_first_and_load_next_send_raw_wait_line :
  let first := run (load_first (X := Sample.externals) true 30)
                 (Sample.replying ["0,7,"; "0,7,"]) in
  let next := run (load_next (X := Sample.externals) 30)
                (Sample.replying ["0,8,"; "0,8,"]) in
  (fst first = Ok tt /\
   existsb is_wait_line (sent_lines (snd first)) = true /\
   wait_calls (snd first) = []) /\
  (fst next = Ok tt /\
   existsb is_wait_line (sent_lines (snd next)) = true /\
   wait_calls (snd next) = []).
Proof. repeat split. Qed.

(* ===================================================================== *)
(** ** [initialize] *)
(* ===================================================================== *)




(* ===================================================================== *)
(** ** [next_step] *)
(* ===================================================================== *)

(** C5 as stated fails: with the payload ["Done 5 Station3 1 24.0 2"] in the
    start reply, [next_step] makes both exchanges and then raises
    [KeyError], because the whole payload is looked up as the state. *)
Lemma next_step_space_separated_payload_raises :
  let env := Sample.replying ["0,7,Done 5 Station3 1 24.0 2"; "0,7,"] in
  acknowledged (X := Sample.externals) env [] "loader:vc:start_next_step"
    "0,7,Done 5 Station3 1 24.0 2"
    {| cmd_id := 7; message := "Done 5 Station3 1 24.0 2" |} /\
  run (next_step (X := Sample.externals) 30) env =
    (Raise (KeyError "Done 5 Station3 1 24.0 2"),
     [EvSend "loader:vc:start_next_step"; EvReadLine;
      EvSend "wait_complete 7, 30"; EvReadLine]) /\
  returned (next_step (X := Sample.externals) 30) env <>
    Ok (Sample.Done, "5", Sample.Station3, 1, 24.0%float, 2).
Proof.
  cbv zeta. split; [|split].
  - repeat split.
  - reflexivity.
  - discriminate.
Qed.

(** C5, as the code has it.  When the start command of [next_step] is
    acknowledged with response [resp] and the line
    ["wait_complete <cmd_id of resp>, <timeout>"], sent next with the
    caller's timeout, is acknowledged too, [next_step] has made exactly
    these two exchanges and returns the payload of [resp] split on [','],
    decoded as one step; the reply to the wait command is not used, but
    when its validation raises, [next_step] raises the same error.  With
    the enumerations of the specification the payload
    ["Done,5,Station3,1,24.0,2"] gives [(Done, "5", Station3, 1, 24.0, 2)],
    and the payload ["Done 5 Station3 1 24.0 2"] raises [KeyError]. *)
Theorem next_step_waits_then_decodes_comma_fields :
  (forall (X : Externals) (env : Env) (timeout : Z)
          (line line' : string) (resp resp' : Response),
      acknowledged env [] "loader:vc:start_next_step" line resp ->
      acknowledged env [EvSend "loader:vc:start_next_step"; EvReadLine]
        (wait_line (cmd_id resp) timeout) line' resp' ->
      run (next_step timeout) env =
        (step_of_columns (split "," (message resp)),
         [EvSend "loader:vc:start_next_step"; EvReadLine;
          EvSend (wait_line (cmd_id resp) timeout); EvReadLine])) /\
  (forall (X : Externals) (env : Env) (timeout : Z)
          (line line' : string) (resp : Response) (e : exn),
      acknowledged env [] "loader:vc:start_next_step" line resp ->
      on_send env [EvSend "loader:vc:start_next_step"; EvReadLine]
        (wait_line (cmd_id resp) timeout) = None ->
      on_read_line env
        [EvSend "loader:vc:start_next_step"; EvReadLine;
         EvSend (wait_line (cmd_id resp) timeout)] = Ok line' ->
      check_resp line' = Raise e ->
      returned (next_step timeout) env = Raise e) /\
  (forall (env : Env) (timeout : Z) (line line' : string) (id : Z)
          (payload : string) (resp' : Response),
      acknowledged (X := Sample.externals) env [] "loader:vc:start_next_step"
        line {| cmd_id := id; message := payload |} ->
      acknowledged (X := Sample.externals) env
        [EvSend "loader:vc:start_next_step"; EvReadLine]
        (wait_line id timeout) line' resp' ->
      (payload = "Done,5,Station3,1,24.0,2" ->
       returned (next_step (X := Sample.externals) timeout) env =
         Ok (Sample.Done, "5", Sample.Station3, 1, 24.0%float, 2)) /\
      (payload = "Done 5 Station3 1 24.0 2" ->
       returned (next_step (X := Sample.externals) timeout) env =
         Raise (KeyError "Done 5 Station3 1 24.0 2"))).
Proof.
  split; [|split].
  - intros X env timeout line line' resp resp' H H'.
    exact (next_step_run_completed env timeout line line' resp resp' H H').
  - intros X env timeout line line' resp e H Hsend Hread Hcheck.
    unfold returned, run, next_step. answered_ack H.
    answered Hsend. answered Hread. answered Hcheck. reflexivity.
  - intros env timeout line line' id payload resp' H H'.
    unfold returned.
    rewrite (next_step_run_completed (X := Sample.externals)
               env timeout line line' _ resp' H H').
    split; intros ->; reflexivity.
Qed.

Lemma next_step_waits_then_decodes_comma_fields_witness :
  run (next_step (X := Sample.externals) 30)
    (Sample.replying ["0,7,Done,5,Station3,1,24.0,2"; "0,7,ignored"]) =
    (Ok (Sample.Done, "5", Sample.Station3, 1, 24.0%float, 2),
     [EvSend "loader:vc:start_next_step"; EvReadLine;
      EvSend "wait_complete 7, 30"; EvReadLine]) /\
  returned (next_step (X := Sample.externals) 30)
    (Sample.replying ["0,7,Done,5,Station3,1,24.0,2"; "9,7,timeout"]) =
    Raise (ProberException "9,7,timeout") /\
  returned (next_step (X := Sample.externals) 30)
    (Sample.replying ["0,7,Done,5,Station3,1,24.0,2"; "0,7,ignored"]) =
    Ok (Sample.Done, "5", Sample.Station3, 1, 24.0%float, 2) /\
  returned (next_step (X := Sample.externals) 30)
    (Sample.replying ["0,7,Done 5 Station3 1 24.0 2"; "0,7,"]) =
    Raise (KeyError "Done 5 Station3 1 24.0 2").
Proof.
  pose proof next_step_waits_then_decodes_comma_fields
    as (Hrun & Hwait & Hsample).
  split; [|split; [|split]].
  - exact (Hrun Sample.externals
             (Sample.replying ["0,7,Done,5,Station3,1,24.0,2"; "0,7,ignored"]) 30
             "0,7,Done,5,Station3,1,24.0,2" "0,7,ignored"
             {| cmd_id := 7; message := "Done,5,Station3,1,24.0,2" |}
             {| cmd_id := 7; message := "ignored" |}
             (conj eq_refl (conj eq_refl eq_refl))
             (conj eq_refl (conj eq_refl eq_refl))).
  - exact (Hwait Sample.externals
             (Sample.replying ["0,7,Done,5,Station3,1,24.0,2"; "9,7,timeout"]) 30
             "0,7,Done,5,Station3,1,24.0,2" "9,7,timeout"
             {| cmd_id := 7; message := "Done,5,Station3,1,24.0,2" |}
             (ProberException "9,7,timeout")
             (conj eq_refl (conj eq_refl eq_refl)) eq_refl eq_refl eq_refl).
  - exact (proj1 (Hsample
                    (Sample.replying ["0,7,Done,5,Station3,1,24.0,2"; "0,7,ignored"])
                    30 "0,7,Done,5,Station3,1,24.0,2" "0,7,ignored" 7
                    "Done,5,Station3,1,24.0,2"
                    {| cmd_id := 7; message := "ignored" |}
                    (conj eq_refl (conj eq_refl eq_refl))
                    (conj eq_refl (conj eq_refl eq_refl)))
             eq_refl).
  - exact (proj2 (Hsample
                    (Sample.replying ["0,7,Done 5 Station3 1 24.0 2"; "0,7,"])
                    30 "0,7,Done 5 Station3 1 24.0 2" "0,7," 7
                    "Done 5 Station3 1 24.0 2"
                    {| cmd_id := 7; message := "" |}
                    (conj eq_refl (conj eq_refl eq_refl))
                    (conj eq_refl (conj eq_refl eq_refl)))
             eq_refl).
Defined.

(* ===================================================================== *)
(** ** The decoding rule *)
(* ===================================================================== *)

(** C7 as stated fails.  The record ["Done 5 Station3 1 24.0 2"] has six
    fields separated by white space, which decode to a step; [next_step]
    does not split it on white space and raises [KeyError] although both
    enumeration tokens name members.  [initialize] splits on the single
    character [' '], not on white space: with two spaces after the state
    the id is empty and the token ["5"] is looked up as the station. *)
Lemma step_payload_not_split_on_whitespace :
  split_whitespace "Done 5 Station3 1 24.0 2" =
    ["Done"; "5"; "Station3"; "1"; "24.0"; "2"] /\
  step_of_columns (X := Sample.externals)
      (split_whitespace "Done 5 Station3 1 24.0 2") =
    Ok (Sample.Done, "5", Sample.Station3, 1, 24.0%float, 2) /\
  returned (next_step (X := Sample.externals) 90)
      (Sample.replying ["0,7,Done 5 Station3 1 24.0 2"; "0,7,"]) =
    Raise (KeyError "Done 5 Station3 1 24.0 2") /\
  split_whitespace "Done  5 Station3 1 24.0 2" =
    ["Done"; "5"; "Station3"; "1"; "24.0"; "2"] /\
  split " " "Done  5 Station3 1 24.0 2" =
    ["Done"; ""; "5"; "Station3"; "1"; "24.0"; "2"] /\
  returned (initialize (X := Sample.externals) "CarrierX" Sample.Start 90)
      (Sample.replying ["0,7,Done  5 Station3 1 24.0 2"]) =
    Raise (KeyError "5").
Proof. repeat split. Qed.

(** C7, as the code has it.  [initialize] splits the payload on [','] into
    records and each record on the single character [' ']; it returns one
    step per record, in order, and raises the error of the first record
    that does not decode.  [next_step] splits the payload on [','] and
    takes the pieces themselves as the fields.  In both, the fields at
    positions 0 to 5 are read in the fixed order state, id, station, slot,
    temperature, probecardIndex, and further fields are ignored; state and
    station are the members whose name is exactly the token; a state token
    that names no member, and a station token that names no member after a
    known state, raise [KeyError] on that token. *)
Theorem step_payload_decoding_rules (X : Externals) :
  (forall (env : Env) carrier_name mode (timeout : Z) line resp done steps,
      let start := "loader:vc:start_initialize " ++ carrier_name ++ ", "
                     ++ toSentioAbbr mode in
      acknowledged env [] start line resp ->
      on_wait_complete env [EvSend start; EvReadLine] (cmd_id resp) None = Ok done ->
      (returned (initialize carrier_name mode timeout) env = Ok steps <->
       Forall2 decodes_to (split "," (message resp)) steps)) /\
  (forall (env : Env) carrier_name mode (timeout : Z) line resp done
          before record after decoded e,
      let start := "loader:vc:start_initialize " ++ carrier_name ++ ", "
                     ++ toSentioAbbr mode in
      acknowledged env [] start line resp ->
      on_wait_complete env [EvSend start; EvReadLine] (cmd_id resp) None = Ok done ->
      split "," (message resp) = (before ++ record :: after)%list ->
      Forall2 decodes_to before decoded ->
      step_of_columns (split " " record) = Raise e ->
      returned (initialize carrier_name mode timeout) env = Raise e) /\
  (forall (env : Env) (timeout : Z) line line' resp resp',
      acknowledged env [] "loader:vc:start_next_step" line resp ->
      acknowledged env [EvSend "loader:vc:start_next_step"; EvReadLine]
        (wait_line (cmd_id resp) timeout) line' resp' ->
      returned (next_step timeout) env =
        step_of_columns (split "," (message resp))) /\
  (forall col state id station slot temp probecard_idx,
      step_of_columns col = Ok (state, id, station, slot, temp, probecard_idx) <->
      exists c0 c2 c3 c4 c5 rest,
        col = c0 :: id :: c2 :: c3 :: c4 :: c5 :: rest /\
        enum_getitem c0 = Ok state /\
        enum_getitem c2 = Ok station /\
        Py.int c3 = Ok slot /\
        float_of_str c4 = Ok temp /\
        Py.int c5 = Ok probecard_idx) /\
  (forall key (state : VirtualCarrierStepProcessingState),
      enum_getitem key = Ok state -> In state members /\ name state = key) /\
  (forall key (station : LoaderStation),
      enum_getitem key = Ok station -> In station members /\ name station = key) /\
  (forall c0 rest,
      (forall m : VirtualCarrierStepProcessingState, In m members -> name m <> c0) ->
      step_of_columns (c0 :: rest) = Raise (KeyError c0)) /\
  (forall c0 id c2 rest,
      (exists m : VirtualCarrierStepProcessingState, In m members /\ name m = c0) ->
      (forall m : LoaderStation, In m members -> name m <> c2) ->
      step_of_columns (c0 :: id :: c2 :: rest) = Raise (KeyError c2)).
Proof.
  repeat apply conj.
  - intros env carrier_name mode timeout line resp done steps start H Hwait.
    unfold returned.
    rewrite (initialize_run_completed env carrier_name mode timeout line resp done
               H Hwait).
    cbn [fst]. rewrite steps_loop_ok. split.
    + now intros (decoded & -> & Hall).
    + intros Hall. now exists steps.
  - intros env carrier_name mode timeout line resp done before record after
      decoded e start H Hwait Hsplit Hall Hbad.
    unfold returned.
    rewrite (initialize_run_completed env carrier_name mode timeout line resp done
               H Hwait).
    cbn [fst]. rewrite Hsplit. now apply (steps_loop_raises before decoded).
  - intros env timeout line line' resp resp' H H'. unfold returned.
    now rewrite (next_step_run_completed env timeout line line' resp resp' H H').
  - apply step_of_columns_ok.
  - intros key state. apply enum_getitem_ok.
  - intros key station. apply enum_getitem_ok.
  - apply step_of_columns_unknown_state.
  - apply step_of_columns_unknown_station.
Qed.

(** Decode the records of a concrete payload one after the other. *)
Ltac decode_records :=
  match goal with
  | |- Forall2 _ ?records _ =>
      let rs := eval vm_compute in records in change records with rs
  end;
  repeat (constructor; [vm_compute; reflexivity|]); constructor.

Lemma step_payload_decoding_rules_witness :
  returned (initialize (X := Sample.externals) "CarrierX" Sample.Start 90)
      (Sample.replying ["0,7,Done 1 Station1 1 20.5 0,Processing 2 Station2 4 -3 1 x"]) =
    Ok [(Sample.Done, "1", Sample.Station1, 1, 20.5%float, 0);
        (Sample.Processing, "2", Sample.Station2, 4, (-3)%float, 1)] /\
  returned (initialize (X := Sample.externals) "CarrierX" Sample.Start 90)
      (Sample.replying ["0,7,Done 1 Station1 1 20.5 0,Paused 2 Station2 1 20.5 0"]) =
    Raise (KeyError "Paused") /\
  returned (next_step (X := Sample.externals) 90)
      (Sample.replying ["0,7,Done,1,Chuck,1,20.5,0"; "0,7,"]) =
    Raise (KeyError "Chuck") /\
  step_of_columns (X := Sample.externals) ["Paused"; "1"] =
    Raise (KeyError "Paused") /\
  step_of_columns (X := Sample.externals) ["Done"; "1"; "Chuck"; "x"] =
    Raise (KeyError "Chuck").
Proof.
  pose proof (step_payload_decoding_rules Sample.externals)
    as (Hinit & Hfirst & Hnext & _ & _ & _ & Hstate & Hstation).
  split; [|split; [|split; [|split]]].
  - apply (proj2 (Hinit
                    (Sample.replying
                       ["0,7,Done 1 Station1 1 20.5 0,Processing 2 Station2 4 -3 1 x"])
                    "CarrierX" Sample.Start 90
                    "0,7,Done 1 Station1 1 20.5 0,Processing 2 Station2 4 -3 1 x"
                    {| cmd_id := 7;
                       message := "Done 1 Station1 1 20.5 0,Processing 2 Station2 4 -3 1 x" |}
                    {| cmd_id := 7; message := "" |}
                    _ (conj eq_refl (conj eq_refl eq_refl)) eq_refl)).
    decode_records.
  - apply (Hfirst
             (Sample.replying
                ["0,7,Done 1 Station1 1 20.5 0,Paused 2 Station2 1 20.5 0"])
             "CarrierX" Sample.Start 90
             "0,7,Done 1 Station1 1 20.5 0,Paused 2 Station2 1 20.5 0"
             {| cmd_id := 7;
                message := "Done 1 Station1 1 20.5 0,Paused 2 Station2 1 20.5 0" |}
             {| cmd_id := 7; message := "" |}
             ["Done 1 Station1 1 20.5 0"] "Paused 2 Station2 1 20.5 0" []
             [(Sample.Done, "1", Sample.Station1, 1, 20.5%float, 0)]
             (KeyError "Paused")
             (conj eq_refl (conj eq_refl eq_refl)) eq_refl eq_refl).
    + decode_records.
    + vm_compute; reflexivity.
  - exact (Hnext (Sample.replying ["0,7,Done,1,Chuck,1,20.5,0"; "0,7,"]) 90
             "0,7,Done,1,Chuck,1,20.5,0" "0,7,"
             {| cmd_id := 7; message := "Done,1,Chuck,1,20.5,0" |}
             {| cmd_id := 7; message := "" |}
             (conj eq_refl (conj eq_refl eq_refl))
             (conj eq_refl (conj eq_refl eq_refl))).
  - apply Hstate. intros m [<-|[<-|[]]]; discriminate.
  - apply Hstation.
    + exists Sample.Done. split; [right; left; reflexivity|reflexivity].
    + intros m [<-|[<-|[<-|[]]]]; discriminate.
Defined.

(* ===================================================================== *)
(** ** More on splitting *)
(* ===================================================================== *)

Lemma split_length (sep : ascii) (s : string) :
  length (split sep s) = S (count_char sep s).
Proof.
  induction s as [|c rest IH]; simpl; [reflexivity|].
  destruct (Ascii.eqb c sep); simpl.
  - now rewrite IH.
  - destruct (split_cons sep rest) as (p & ps & Heq).
    rewrite Heq in *. exact IH.
Qed.

Lemma join_cons (sep p q : string) (rest : list string) :
  join sep (p :: q :: rest) = p ++ sep ++ join sep (q :: rest).
Proof. reflexivity. Qed.

Lemma split_join (sep : ascii) (s : string) :
  join (String sep "") (split sep s) = s.
Proof.
  induction s as [|c rest IH]; [reflexivity|].
  cbn [split]. destruct (split_cons sep rest) as (p & ps & Heq).
  rewrite Heq in *. destruct (Ascii.eqb c sep) eqn:Hc.
  - apply Ascii.eqb_eq in Hc as ->. rewrite join_cons. now rewrite IH.
  - rewrite <- IH. destruct ps as [|q qs]; [reflexivity|].
    now rewrite !join_cons.
Qed.

Lemma split_pieces_without_sep (sep : ascii) (s : string) :
  Forall (fun piece => count_char sep piece = 0%nat) (split sep s).
Proof.
  induction s as [|c rest IH]; simpl.
  - now repeat constructor.
  - destruct (Ascii.eqb c sep) eqn:Hc.
    + now constructor.
    + destruct (split_cons sep rest) as (p & ps & Heq).
      rewrite Heq in *. inversion IH as [|? ? Hp Hps]; subst.
      constructor; [|assumption]. simpl. now rewrite Hc.
Qed.

Lemma split_app (sep : ascii) (a b : string) :
  split sep (a ++ String sep b) = (split sep a ++ split sep b)%list.
Proof.
  induction a as [|c rest IH]; simpl.
  - now rewrite Ascii.eqb_refl.
  - destruct (Ascii.eqb c sep); [now rewrite IH|].
    rewrite IH. destruct (split_cons sep rest) as (p & ps & ->). reflexivity.
Qed.

(* ===================================================================== *)
(** ** What a normal return tells *)
(* ===================================================================== *)

Lemma run_wait_raise {B : Type} (env : Env) (t : trace) (id : Z)
    (timeout : option Z) (e : exn) (k : Response -> M B) :
  on_wait_complete env t id timeout = Raise e ->
  bind (wait_complete id timeout) k env t =
    (Raise e, (t ++ [EvWaitComplete id timeout])%list).
Proof. intros H. unfold bind, wait_complete. now rewrite H. Qed.

Lemma run_ret {A B : Type} (env : Env) (t : trace) (a : A) (k : A -> M B) :
  bind (ret a) k env t = k a env t.
Proof. reflexivity. Qed.

(** Split on the answer to the next pending collaborator call of a run. *)
Ltac ask :=
  cbv beta; repeat (rewrite run_bind_bind; cbv beta);
  let H := fresh "Hanswer" in
  match goal with
  | |- context [bind (send ?l) _ ?env ?t] =>
      destruct (on_send env t l) eqn:H; answered H
  | |- context [bind read_line _ ?env ?t] =>
      destruct (on_read_line env t) eqn:H; answered H
  | |- context [bind (lift (check_resp ?l)) _ _ _] =>
      destruct (check_resp l) eqn:H; answered H
  | |- context [bind (wait_complete ?i ?o) _ ?env ?t] =>
      destruct (on_wait_complete env t i o) eqn:H;
      first [answered H | erewrite run_wait_raise by exact H]
  end;
  try solve [cbn [fst]; intros [=]].

Section Returns.

Context `{X : Externals}.

Lemma initialize_returns_inv (env : Env) (carrier_name : string)
    (mode : VirtualCarrierInitFlags) (timeout : Z) (steps : list ProcessingStep) :
  let start := "loader:vc:start_initialize " ++ carrier_name ++ ", " ++ toSentioAbbr mode in
  returned (initialize carrier_name mode timeout) env = Ok steps ->
  exists line resp done,
    acknowledged env [] start line resp /\
    on_wait_complete env [EvSend start; EvReadLine] (cmd_id resp) None = Ok done /\
    steps_loop (split "," (message resp)) [] = Ok steps.
Proof.
  intros start. unfold returned, run, initialize. do 4 ask.
  unfold lift. cbn [fst]. intros Hloop.
  eexists _, _, _. repeat split; eassumption.
Qed.

Lemma next_step_returns_inv (env : Env) (timeout : Z) (step : ProcessingStep) :
  returned (next_step timeout) env = Ok step ->
  exists line resp line' resp',
    acknowledged env [] "loader:vc:start_next_step" line resp /\
    acknowledged env [EvSend "loader:vc:start_next_step"; EvReadLine]
      (wait_line (cmd_id resp) timeout) line' resp' /\
    step_of_columns (split "," (message resp)) = Ok step.
Proof.
  unfold returned, run, next_step. do 6 ask.
  unfold lift. cbn [fst]. intros Hstep.
  eexists _, _, _, _. repeat split; eassumption.
Qed.

End Returns.

(* ===================================================================== *)
(** ** Shape of the call traces *)
(* ===================================================================== *)

(** X1.  [list], [select], [start_load_first] and [start_load_next] send
    exactly one line, whatever the collaborators answer, read at most one
    reply, and never wait: they send no [wait_complete] line and make no
    call on the session controller. *)
Theorem single_exchange_methods_never_wait `{X : Externals}
    (env : Env) (vc_name : string) (cleanup : bool) :
  (sent_lines (calls list_ env) = ["loader:vc:list"] /\
   (read_calls (calls list_ env) <= 1)%nat /\
   wait_calls (calls list_ env) = []) /\
  (sent_lines (calls (select vc_name) env) = ["loader:vc:select " ++ vc_name] /\
   (read_calls (calls (select vc_name) env) <= 1)%nat /\
   wait_calls (calls (select vc_name) env) = []) /\
  (sent_lines (calls (start_load_first cleanup) env) =
     ["loader:vc:start_load_first " ++ str_bool cleanup] /\
   (read_calls (calls (start_load_first cleanup) env) <= 1)%nat /\
   wait_calls (calls (start_load_first cleanup) env) = []) /\
  (sent_lines (calls start_load_next env) = ["loader:vc:start_load_next"] /\
   (read_calls (calls start_load_next env) <= 1)%nat /\
   wait_calls (calls start_load_next env) = []).
Proof.
  repeat apply conj; unfold read_calls; unfold_method; repeat next_answer;
    first [reflexivity | simpl; lia].
Qed.

(** X2.  Once their command is sent and a reply read, [start_load_first]
    and [start_load_next] return exactly what validation makes of the
    reply, the response when it validates and the error when it does not,
    after these two calls and no other. *)
Theorem start_methods_return_validated_reply `{X : Externals}
    (env : Env) (cleanup : bool) :
  (forall line,
      on_send env [] ("loader:vc:start_load_first " ++ str_bool cleanup) = None ->
      on_read_line env [EvSend ("loader:vc:start_load_first " ++ str_bool cleanup)]
        = Ok line ->
      run (start_load_first cleanup) env =
        (check_resp line,
         [EvSend ("loader:vc:start_load_first " ++ str_bool cleanup); EvReadLine])) /\
  (forall line,
      on_send env [] "loader:vc:start_load_next" = None ->
      on_read_line env [EvSend "loader:vc:start_load_next"] = Ok line ->
      run start_load_next env =
        (check_resp line, [EvSend "loader:vc:start_load_next"; EvReadLine])).
Proof.
  split; intros line Hsend Hread.
  - unfold run, start_load_first. answered Hsend. answered Hread.
    unfold bind, lift, ret. now destruct (check_resp line).
  - unfold run, start_load_next. answered Hsend. answered Hread.
    unfold bind, lift, ret. now destruct (check_resp line).
Qed.

Lemma start_methods_return_validated_reply_witness :
  run (start_load_first (X := Sample.externals) true)
      (Sample.replying ["0,12,"]) =
    (Ok {| cmd_id := 12; message := "" |},
     [EvSend "loader:vc:start_load_first True"; EvReadLine]) /\
  run (start_load_next (X := Sample.externals))
      (Sample.replying ["4,12,no wafer"]) =
    (Raise (ProberException "4,12,no wafer"),
     [EvSend "loader:vc:start_load_next"; EvReadLine]).
Proof.
  split.
  - exact (proj1 (start_methods_return_validated_reply
                    (X := Sample.externals) (Sample.replying ["0,12,"]) true)
             "0,12," eq_refl eq_refl).
  - exact (proj2 (start_methods_return_validated_reply
                    (X := Sample.externals) (Sample.replying ["4,12,no wafer"]) true)
             "4,12,no wafer" eq_refl eq_refl).
Defined.

(** X3.  No method retries: a call makes at most two sends, two reads and
    one call on the session controller, whatever the collaborators
    answer. *)
Theorem calls_are_bounded `{X : Externals} (c : call) (env : Env) :
  (length (sent_lines (call_trace c env)) <= 2)%nat /\
  (read_calls (call_trace c env) <= 2)%nat /\
  (length (wait_calls (call_trace c env)) <= 1)%nat.
Proof.
  unfold read_calls.
  destruct c; unfold_method; repeat next_answer; simpl; lia.
Qed.

(** Find the position of a call in a concrete trace. *)
Ltac locate_call before Hsplit :=
  destruct before as [|? before]; simpl in Hsplit;
  [ first [discriminate Hsplit | inversion Hsplit; subst; clear Hsplit]
  | first [discriminate Hsplit
          | let Hhead := fresh "Hhead" in
            let Htail := fresh "Htail" in
            injection Hsplit as Hhead Htail; subst; locate_call before Htail] ].

(** X4.  Every method stops at the first failure: after a send that
    raised, a read that raised, a reply that did not validate or a
    completion wait that raised, it makes no further collaborator call. *)
Theorem no_call_after_failure `{X : Externals} (c : call) (env : Env)
    (before : trace) (ev : event) (after : trace) :
  call_trace c env = (before ++ ev :: after)%list ->
  call_failed env before ev = true ->
  after = [].
Proof.
  revert before ev after.
  destruct c; unfold_method; repeat next_answer;
    intros before ev after Hsplit Hfail;
    locate_call before Hsplit; try reflexivity;
    unfold call_failed in Hfail; simpl in Hfail;
    repeat match goal with
           | H : on_send _ _ _ = _ |- _ => rewrite H in Hfail; simpl in Hfail
           | H : on_read_line _ _ = _ |- _ => rewrite H in Hfail; simpl in Hfail
           | H : check_resp _ = _ |- _ => rewrite H in Hfail; simpl in Hfail
           | H : on_wait_complete _ _ _ _ = _ |- _ =>
               rewrite H in Hfail; simpl in Hfail
           end;
    discriminate Hfail.
Qed.

Lemma no_call_after_failure_witness :
  call_trace (X := Sample.externals) (CallLoadFirst true 30)
      (Sample.replying ["5,1,chuck occupied"; "0,1,"]) =
    ([EvSend "loader:vc:start_load_first True"] ++ EvReadLine :: [])%list /\
  call_failed (X := Sample.externals)
      (Sample.replying ["5,1,chuck occupied"; "0,1,"])
      [EvSend "loader:vc:start_load_first True"] EvReadLine = true /\
  @nil event = [].
Proof.
  split; [reflexivity|]. split; [reflexivity|].
  exact (no_call_after_failure (X := Sample.externals) (CallLoadFirst true 30)
           (Sample.replying ["5,1,chuck occupied"; "0,1,"])
           [EvSend "loader:vc:start_load_first True"] EvReadLine []
           eq_refl eq_refl).
Defined.

(* ===================================================================== *)
(** ** The blocking methods as a whole *)
(* ===================================================================== *)

(** X5.  [load_first] returns normally exactly when its start command is
    acknowledged and the wait command built from the correlation id of that
    acknowledgement and the caller's timeout is acknowledged too; it has
    then made exactly these two exchanges. *)
Theorem load_first_returns_iff_both_acknowledged `{X : Externals}
    (env : Env) (cleanup : bool) (timeout : Z) :
  let start := "loader:vc:start_load_first " ++ str_bool cleanup in
  returned (load_first cleanup timeout) env = Ok tt <->
  exists line resp line' resp',
    acknowledged env [] start line resp /\
    acknowledged env [EvSend start; EvReadLine]
      (wait_line (cmd_id resp) timeout) line' resp' /\
    calls (load_first cleanup timeout) env =
      [EvSend start; EvReadLine;
       EvSend (wait_line (cmd_id resp) timeout); EvReadLine].
Proof.
  intros start. split.
  - unfold returned, calls, run, load_first, start_load_first. do 3 ask.
    rewrite !run_ret. do 3 ask. intros _.
    eexists _, _, _, _. split; [|split].
    + repeat split; eassumption.
    + repeat split; eassumption.
    + reflexivity.
  - intros (line & resp & line' & resp' & H & H' & _).
    unfold returned.
    rewrite (load_first_run_acknowledged env cleanup timeout line resp H).
    answered_ack H'. reflexivity.
Qed.

Lemma load_first_returns_iff_both_acknowledged_witness :
  returned (load_first (X := Sample.externals) false 15)
    (Sample.replying ["0,21,"; "0,21,"]) = Ok tt.
Proof.
  apply (proj2 (load_first_returns_iff_both_acknowledged
                  (X := Sample.externals)
                  (Sample.replying ["0,21,"; "0,21,"]) false 15)).
  exists "0,21,", {| cmd_id := 21; message := "" |},
         "0,21,", {| cmd_id := 21; message := "" |}.
  repeat split.
Defined.

(** X6.  [load_next] returns normally exactly when its start command is
    acknowledged and the wait command built from the correlation id of that
    acknowledgement and the caller's timeout is acknowledged too; it has
    then made exactly these two exchanges. *)
Theorem load_next_returns_iff_both_acknowledged `{X : Externals}
    (env : Env) (timeout : Z) :
  returned (load_next timeout) env = Ok tt <->
  exists line resp line' resp',
    acknowledged env [] "loader:vc:start_load_next" line resp /\
    acknowledged env [EvSend "loader:vc:start_load_next"; EvReadLine]
      (wait_line (cmd_id resp) timeout) line' resp' /\
    calls (load_next timeout) env =
      [EvSend "loader:vc:start_load_next"; EvReadLine;
       EvSend (wait_line (cmd_id resp) timeout); EvReadLine].
Proof.
  split.
  - unfold returned, calls, run, load_next, start_load_next. do 3 ask.
    rewrite !run_ret. do 3 ask. intros _.
    eexists _, _, _, _. split; [|split].
    + repeat split; eassumption.
    + repeat split; eassumption.
    + reflexivity.
  - intros (line & resp & line' & resp' & H & H' & _).
    unfold returned.
    rewrite (load_next_run_acknowledged env timeout line resp H).
    answered_ack H'. reflexivity.
Qed.

Lemma load_next_returns_iff_both_acknowledged_witness :
  returned (load_next (X := Sample.externals) 15)
    (Sample.replying ["0,22,"; "0,22,"]) = Ok tt.
Proof.
  apply (proj2 (load_next_returns_iff_both_acknowledged
                  (X := Sample.externals)
                  (Sample.replying ["0,22,"; "0,22,"]) 15)).
  exists "0,22,", {| cmd_id := 22; message := "" |},
         "0,22,", {| cmd_id := 22; message := "" |}.
  repeat split.
Defined.

(** X7.  When the start command of [initialize] is acknowledged but the
    completion wait raises, [initialize] raises that error after exactly
    the three calls made so far; the payload is not decoded, so a payload
    that would not decode does not change the error. *)
Theorem initialize_wait_failure_propagates `{X : Externals}
    (env : Env) (carrier_name : string) (mode : VirtualCarrierInitFlags)
    (timeout : Z) (line : string) (resp : Response) (e : exn) :
  let start := "loader:vc:start_initialize " ++ carrier_name ++ ", "
                 ++ toSentioAbbr mode in
  acknowledged env [] start line resp ->
  on_wait_complete env [EvSend start; EvReadLine] (cmd_id resp) None = Raise e ->
  run (initialize carrier_name mode timeout) env =
    (Raise e, [EvSend start; EvReadLine; EvWaitComplete (cmd_id resp) None]).
Proof.
  intros start H Hwait. unfold run, initialize. answered_ack H.
  erewrite run_wait_raise by exact Hwait. reflexivity.
Qed.

Lemma initialize_wait_failure_propagates_witness :
  run (initialize (X := Sample.externals) "CarrierX" Sample.Start 90)
    (Sample.scripted [] [Ok "0,7,not a step"]
       [Raise (ProberException "timeout")]) =
    (Raise (ProberException "timeout"),
     [EvSend "loader:vc:start_initialize CarrierX, Start"; EvReadLine;
      EvWaitComplete 7 None]).
Proof.
  exact (initialize_wait_failure_propagates (X := Sample.externals)
           (Sample.scripted [] [Ok "0,7,not a step"]
              [Raise (ProberException "timeout")])
           "CarrierX" Sample.Start 90 "0,7,not a step"
           {| cmd_id := 7; message := "not a step" |}
           (ProberException "timeout")
           (conj eq_refl (conj eq_refl eq_refl)) eq_refl).
Defined.

(* ===================================================================== *)
(** ** What the decoders accept *)
(* ===================================================================== *)


Section Accepting.

Context `{X : Externals}.

Lemma step_of_columns_length (col : list string) (step : ProcessingStep) :
  step_of_columns col = Ok step -> (6 <= length col)%nat.
Proof.
  destruct step as [[[[[state id] station] slot] temp] idx].
  intros H. apply step_of_columns_ok in H
    as (c0 & c2 & c3 & c4 & c5 & rest & -> & _). simpl. lia.
Qed.

Lemma step_of_columns_app (col more : list string) (step : ProcessingStep) :
  step_of_columns col = Ok step -> step_of_columns (col ++ more) = Ok step.
Proof.
  destruct step as [[[[[state id] station] slot] temp] idx].
  intros H. apply step_of_columns_ok in H
    as (c0 & c2 & c3 & c4 & c5 & rest & -> & H0 & H2 & H3 & H4 & H5).
  apply step_of_columns_ok. exists c0, c2, c3, c4, c5, (rest ++ more)%list.
  repeat split; assumption.
Qed.

End Accepting.

(** X8.  Whenever [initialize] returns, it returns exactly one step per
    record of the acknowledged payload, that is one more step than the
    payload has commas; it never returns an empty list. *)
Theorem initialize_returns_one_step_per_record `{X : Externals}
    (env : Env) (carrier_name : string) (mode : VirtualCarrierInitFlags)
    (timeout : Z) (steps : list ProcessingStep) :
  returned (initialize carrier_name mode timeout) env = Ok steps ->
  exists line resp,
    acknowledged env []
      ("loader:vc:start_initialize " ++ carrier_name ++ ", " ++ toSentioAbbr mode)
      line resp /\
    length steps = S (count_char "," (message resp)) /\
    steps <> [].
Proof.
  intros H. apply initialize_returns_inv in H
    as (line & resp & done & Hack & _ & Hloop).
  apply steps_loop_ok in Hloop as (decoded & -> & Hall).
  apply Forall2_length in Hall. rewrite split_length in Hall.
  exists line, resp. repeat split; try apply Hack.
  - simpl. now rewrite <- Hall.
  - simpl. intros ->. discriminate.
Qed.

Lemma initialize_returns_one_step_per_record_witness :
  exists line resp,
    acknowledged (X := Sample.externals)
      (Sample.replying ["0,7,Done 1 Station1 1 20.5 0,Done 2 Station1 2 20.5 0"]) []
      "loader:vc:start_initialize CarrierX, Start" line resp /\
    length [(Sample.Done, "1", Sample.Station1, 1, 20.5%float, 0);
            (Sample.Done, "2", Sample.Station1, 2, 20.5%float, 0)] =
      S (count_char "," (message resp)) /\
    [(Sample.Done, "1", Sample.Station1, 1, 20.5%float, 0);
     (Sample.Done, "2", Sample.Station1, 2, 20.5%float, 0)] <> [].
Proof.
  exact (initialize_returns_one_step_per_record (X := Sample.externals)
           (Sample.replying ["0,7,Done 1 Station1 1 20.5 0,Done 2 Station1 2 20.5 0"])
           "CarrierX" Sample.Start 90
           [(Sample.Done, "1", Sample.Station1, 1, 20.5%float, 0);
            (Sample.Done, "2", Sample.Station1, 2, 20.5%float, 0)]
           eq_refl).
Defined.

(** X9.  An empty payload is not an empty plan: when the start command of
    [initialize] is acknowledged with an empty payload and the completion
    wait returns, [initialize] raises [KeyError] on the empty state token,
    provided no state member has the empty name. *)
Theorem initialize_empty_payload_raises `{X : Externals}
    (env : Env) (carrier_name : string) (mode : VirtualCarrierInitFlags)
    (timeout : Z) (line : string) (resp done : Response) :
  let start := "loader:vc:start_initialize " ++ carrier_name ++ ", "
                 ++ toSentioAbbr mode in
  acknowledged env [] start line resp ->
  on_wait_complete env [EvSend start; EvReadLine] (cmd_id resp) None = Ok done ->
  message resp = "" ->
  (forall m : VirtualCarrierStepProcessingState, In m members -> name m <> "") ->
  returned (initialize carrier_name mode timeout) env = Raise (KeyError "").
Proof.
  intros start H Hwait Hmsg Hno. unfold returned.
  rewrite (initialize_run_completed env carrier_name mode timeout line resp done
             H Hwait).
  rewrite Hmsg. cbn [fst split steps_loop].
  now rewrite (step_of_columns_unknown_state "" [] Hno).
Qed.

Lemma initialize_empty_payload_raises_witness :
  returned (initialize (X := Sample.externals) "CarrierX" Sample.Start 90)
    (Sample.replying ["0,7,"]) = Raise (KeyError "").
Proof.
  apply (initialize_empty_payload_raises (X := Sample.externals)
           (Sample.replying ["0,7,"]) "CarrierX" Sample.Start 90 "0,7,"
           {| cmd_id := 7; message := "" |} {| cmd_id := 7; message := "" |}
           (conj eq_refl (conj eq_refl eq_refl)) eq_refl eq_refl).
  intros m [<-|[<-|[]]]; discriminate.
Defined.

(** X10.  When the exchange of [list] goes through, the names it returns,
    joined with [','], give back the payload; no name contains a comma, and
    there is one more name than the payload has commas. *)
Theorem list_names_rebuild_payload `{X : Externals}
    (env : Env) (line : string) (resp : Response) :
  acknowledged env [] "loader:vc:list" line resp ->
  exists names,
    returned list_ env = Ok names /\
    join "," names = message resp /\
    Forall (fun n => count_char "," n = 0%nat) names /\
    length names = S (count_char "," (message resp)).
Proof.
  intros H. exists (split "," (message resp)). unfold returned.
  rewrite (list_run_acknowledged env line resp H). repeat split.
  - apply split_join.
  - apply split_pieces_without_sep.
  - apply split_length.
Qed.

Lemma list_names_rebuild_payload_witness :
  exists names,
    returned (list_ (X := Sample.externals)) (Sample.replying ["0,4,Lot A,,Lot B"])
      = Ok names /\
    join "," names = "Lot A,,Lot B" /\
    Forall (fun n => count_char "," n = 0%nat) names /\
    length names = 3%nat.
Proof.
  exact (list_names_rebuild_payload (X := Sample.externals)
           (Sample.replying ["0,4,Lot A,,Lot B"]) "0,4,Lot A,,Lot B"
           {| cmd_id := 4; message := "Lot A,,Lot B" |}
           (conj eq_refl (conj eq_refl eq_refl))).
Defined.

(** X11.  Fields after the sixth are ignored: columns that decode to a
    step still decode to it when more columns follow, and a record of
    [initialize] that decodes to a step still does when a space and any
    further text are appended to it. *)
Theorem decoding_ignores_trailing_fields `{X : Externals}
    (step : ProcessingStep) :
  (forall col more,
      step_of_columns col = Ok step -> step_of_columns (col ++ more) = Ok step) /\
  (forall record extra,
      decodes_to record step -> decodes_to (record ++ " " ++ extra) step).
Proof.
  split.
  - intros col more. apply step_of_columns_app.
  - intros record extra H. unfold decodes_to in *.
    change (record ++ " " ++ extra) with (record ++ String " " extra).
    rewrite split_app. now apply step_of_columns_app.
Qed.

Lemma decoding_ignores_trailing_fields_witness :
  step_of_columns (X := Sample.externals)
      (["Done"; "5"; "Station3"; "1"; "24.0"; "2"] ++ ["7"; ""])%list =
    Ok (Sample.Done, "5", Sample.Station3, 1, 24.0%float, 2) /\
  decodes_to (X := Sample.externals)
    ("Done 5 Station3 1 24.0 2" ++ " " ++ "left over text")
    (Sample.Done, "5", Sample.Station3, 1, 24.0%float, 2).
Proof.
  split.
  - apply (proj1 (decoding_ignores_trailing_fields (X := Sample.externals)
                    (Sample.Done, "5", Sample.Station3, 1, 24.0%float, 2))).
    vm_compute; reflexivity.
  - apply (proj2 (decoding_ignores_trailing_fields (X := Sample.externals)
                    (Sample.Done, "5", Sample.Station3, 1, 24.0%float, 2))).
    vm_compute; reflexivity.
Defined.

(** X12.  [next_step] returns normally only when the payload of the
    acknowledged start reply has at least five commas, that is at least six
    comma-separated fields; a payload without a comma never decodes. *)
Theorem next_step_needs_six_comma_fields `{X : Externals}
    (env : Env) (timeout : Z) (step : ProcessingStep) :
  returned (next_step timeout) env = Ok step ->
  exists line resp,
    acknowledged env [] "loader:vc:start_next_step" line resp /\
    (5 <= count_char "," (message resp))%nat.
Proof.
  intros H. apply next_step_returns_inv in H
    as (line & resp & line' & resp' & Hack & _ & Hstep).
  exists line, resp. split; [exact Hack|].
  apply step_of_columns_length in Hstep. rewrite split_length in Hstep. lia.
Qed.

Lemma next_step_needs_six_comma_fields_witness :
  exists line resp,
    acknowledged (X := Sample.externals)
      (Sample.replying ["0,7,Done,5,Station3,1,24.0,2"; "0,7,"]) []
      "loader:vc:start_next_step" line resp /\
    (5 <= count_char "," (message resp))%nat.
Proof.
  exact (next_step_needs_six_comma_fields (X := Sample.externals)
           (Sample.replying ["0,7,Done,5,Station3,1,24.0,2"; "0,7,"]) 30
           (Sample.Done, "5", Sample.Station3, 1, 24.0%float, 2) eq_refl).
Defined.

(** X13.  [initialize] returns normally only when every record of the
    acknowledged payload has at least five spaces, that is at least six
    space-separated fields. *)
Theorem initialize_needs_six_fields_per_record `{X : Externals}
    (env : Env) (carrier_name : string) (mode : VirtualCarrierInitFlags)
    (timeout : Z) (steps : list ProcessingStep) :
  returned (initialize carrier_name mode timeout) env = Ok steps ->
  exists line resp,
    acknowledged env []
      ("loader:vc:start_initialize " ++ carrier_name ++ ", " ++ toSentioAbbr mode)
      line resp /\
    Forall (fun record => (5 <= count_char " " record)%nat)
      (split "," (message resp)).
Proof.
  intros H. apply initialize_returns_inv in H
    as (line & resp & done & Hack & _ & Hloop).
  exists line, resp. split; [exact Hack|].
  apply steps_loop_ok in Hloop as (decoded & _ & Hall).
  induction Hall as [|record step records decoded' Hstep _ IH]; constructor.
  - apply step_of_columns_length in Hstep. rewrite split_length in Hstep. lia.
  - exact IH.
Qed.

Lemma initialize_needs_six_fields_per_record_witness :
  exists line resp,
    acknowledged (X := Sample.externals)
      (Sample.replying ["0,7,Done 1 Station1 1 20.5 0,Done 2 Station1 2 20.5 0"]) []
      "loader:vc:start_initialize CarrierX, Start" line resp /\
    Forall (fun record => (5 <= count_char " " record)%nat)
      (split "," (message resp)).
Proof.
  exact (initialize_needs_six_fields_per_record (X := Sample.externals)
           (Sample.replying ["0,7,Done 1 Station1 1 20.5 0,Done 2 Station1 2 20.5 0"])
           "CarrierX" Sample.Start 90
           [(Sample.Done, "1", Sample.Station1, 1, 20.5%float, 0);
            (Sample.Done, "2", Sample.Station1, 2, 20.5%float, 0)]
           eq_refl).
Defined.



(* ===================================================================== *)
(** ** Writing and reading integers *)
(* ===================================================================== *)

Lemma lstrip_no_space (cs : list ascii) :
  Forall (fun c => is_space c = false) cs -> lstrip cs = cs.
Proof. destruct 1 as [|c rest Hc _]; simpl; [reflexivity|now rewrite Hc]. Qed.

Lemma strip_no_space (cs : list ascii) :
  Forall (fun c => is_space c = false) cs -> strip cs = cs.
Proof.
  intros H. unfold strip. rewrite (lstrip_no_space cs H).
  rewrite lstrip_no_space by now apply Forall_rev.
  apply rev_involutive.
Qed.

Lemma uint_chars_no_space (d : Decimal.uint) :
  Forall (fun c => is_space c = false)
    (list_ascii_of_string (NilEmpty.string_of_uint d)).
Proof. induction d; simpl; constructor; solve [reflexivity | assumption]. Qed.

(** Reading the digits of [d] after digits worth [of_lu d'] (written least
    significant digit first) gives the value of all the digits. *)
Lemma digits_val_uint (d : Decimal.uint) :
  forall (d' : Decimal.uint) (acc : Z) (after_digit : bool),
    acc = Z.of_N (DecimalPos.Unsigned.of_lu d') ->
    digits_val (list_ascii_of_string (NilEmpty.string_of_uint d)) acc after_digit =
      match d with
      | Decimal.Nil => if after_digit then Some acc else None
      | _ => Some (Z.of_N (DecimalPos.Unsigned.of_lu (Decimal.revapp d d')))
      end.
Proof.
  induction d as [|d IH|d IH|d IH|d IH|d IH|d IH|d IH|d IH|d IH|d IH];
    intros d' acc after_digit Hacc; [reflexivity|..];
    cbn [NilEmpty.string_of_uint list_ascii_of_string digits_val];
    match goal with
    | |- context [is_digit ?c] => change (is_digit c) with true; cbv iota
    end;
    match goal with
    | |- digits_val _ ?acc' true = Some (Z.of_N (_ (Decimal.revapp ?hd d'))) =>
        match hd with
        | ?D d =>
            assert (Hacc' : acc' = Z.of_N (DecimalPos.Unsigned.of_lu (D d')))
              by (subst acc; cbn [DecimalPos.Unsigned.of_lu];
                  match goal with
                  | |- context [digit_val ?c] =>
                      let v := eval vm_compute in (digit_val c) in
                      change (digit_val c) with v
                  end; lia);
            rewrite (IH (D d') acc' true Hacc');
            destruct d; try reflexivity; now rewrite Hacc'
        end
    end.
Qed.

Lemma uint_head_is_digit (d : Decimal.uint) :
  d <> Decimal.Nil ->
  exists c rest,
    list_ascii_of_string (NilEmpty.string_of_uint d) = c :: rest /\
    is_digit c = true.
Proof.
  destruct d; intros H; try (now elim H); simpl; eauto.
Qed.

Lemma int_of_digits (d : Decimal.uint) :
  d <> Decimal.Nil ->
  Py.int (NilEmpty.string_of_uint d) = Ok (Z.of_N (Pos.of_uint d)) /\
  Py.int (String "-" (NilEmpty.string_of_uint d)) = Ok (- Z.of_N (Pos.of_uint d)).
Proof.
  intros Hd. rewrite DecimalPos.Unsigned.of_uint_alt.
  pose proof (digits_val_uint d Decimal.Nil 0 false eq_refl) as Hval.
  assert (Hsome : digits_val (list_ascii_of_string (NilEmpty.string_of_uint d)) 0 false
                  = Some (Z.of_N (DecimalPos.Unsigned.of_lu (Decimal.rev d)))).
  { rewrite Hval. destruct d; try reflexivity. now elim Hd. }
  clear Hval. split; unfold Py.int.
  - rewrite strip_no_space by apply uint_chars_no_space.
    destruct (uint_head_is_digit d Hd) as (c & rest & Hchars & Hc).
    rewrite Hchars in *.
    destruct c as [[] [] [] [] [] [] [] []]; try discriminate Hc;
      cbv beta iota zeta; now rewrite Hsome.
  - cbn [list_ascii_of_string].
    rewrite strip_no_space
      by (constructor; [reflexivity|apply uint_chars_no_space]).
    rewrite Hsome. reflexivity.
Qed.

Lemma int_of_str_int (n : Z) : Py.int (str_int n) = Ok n.
Proof.
  unfold str_int. destruct n as [|p|p]; [reflexivity| |].
  - cbn [Z.to_int NilZero.string_of_int]. unfold NilZero.string_of_uint.
    pose proof (DecimalPos.Unsigned.to_uint_nonnil p) as Hnil.
    destruct (Pos.to_uint p) eqn:Hp; try (now elim Hnil);
      rewrite <- Hp;
      rewrite (proj1 (int_of_digits (Pos.to_uint p) (DecimalPos.Unsigned.to_uint_nonnil p)));
      now rewrite DecimalPos.Unsigned.of_to.
  - cbn [Z.to_int NilZero.string_of_int]. unfold NilZero.string_of_uint.
    pose proof (DecimalPos.Unsigned.to_uint_nonnil p) as Hnil.
    destruct (Pos.to_uint p) eqn:Hp; try (now elim Hnil);
      rewrite <- Hp;
      rewrite (proj2 (int_of_digits (Pos.to_uint p) (DecimalPos.Unsigned.to_uint_nonnil p)));
      now rewrite DecimalPos.Unsigned.of_to.
Qed.

Lemma in_nodup_map_inj {A B : Type} (f : A -> B) (l : list A) (a b : A) :
  NoDup (map f l) -> In a l -> In b l -> f a = f b -> a = b.
Proof.
  induction l as [|x l IH]; simpl; [intros _ []|].
  intros Hnd Ha Hb Hf. inversion Hnd as [|? ? Hnotin Hnd']; subst.
  destruct Ha as [->|Ha], Hb as [->|Hb].
  - reflexivity.
  - elim Hnotin. rewrite Hf. now apply in_map.
  - elim Hnotin. rewrite <- Hf. now apply in_map.
  - now apply IH.
Qed.

Lemma enum_getitem_name {E : Type} `{Enum E} (m : E) :
  NoDup (map name members) -> In m members -> enum_getitem (name m) = Ok m.
Proof.
  intros Hnd Hin.
  destruct (enum_getitem_known (name m) (ex_intro _ m (conj Hin eq_refl)))
    as [m' Hm'].
  rewrite Hm'. apply enum_getitem_ok in Hm' as [Hin' Hname].
  f_equal. now apply (in_nodup_map_inj name members).
Qed.

(** X15.  Decoding reads back what was written: when member names are
    unique, as Python enumerations have them, the columns made of the name
    of a state member, an id, the name of a station member, a slot written
    in decimal, a temperature text [float] accepts and a probecardIndex
    written in decimal decode to exactly that state, id, station, slot,
    temperature and probecardIndex. *)
Theorem written_fields_decode_back `{X : Externals}
    (state : VirtualCarrierStepProcessingState) (id : string)
    (station : LoaderStation) (slot : Z) (c4 : string) (temp : float)
    (probecard_idx : Z) :
  NoDup (map name (members (E := VirtualCarrierStepProcessingState))) ->
  NoDup (map name (members (E := LoaderStation))) ->
  In state members -> In station members ->
  float_of_str c4 = Ok temp ->
  step_of_columns
    [name state; id; name station; str_int slot; c4; str_int probecard_idx] =
    Ok (state, id, station, slot, temp, probecard_idx).
Proof.
  intros Hstates Hstations Hstate Hstation Htemp.
  apply step_of_columns_ok.
  exists (name state), (name station), (str_int slot), c4,
         (str_int probecard_idx), [].
  repeat split.
  - now apply enum_getitem_name.
  - now apply enum_getitem_name.
  - apply int_of_str_int.
  - exact Htemp.
  - apply int_of_str_int.
Qed.

Lemma written_fields_decode_back_witness :
  step_of_columns (X := Sample.externals)
    ["Processing"; "W-17"; "Station2"; "12"; "-40.5"; "3"] =
    Ok (Sample.Processing, "W-17", Sample.Station2, 12, (-40.5)%float, 3).
Proof.
  apply (written_fields_decode_back (X := Sample.externals)
           Sample.Processing "W-17" Sample.Station2 12 "-40.5" (-40.5)%float 3).
  - repeat constructor; simpl; intuition discriminate.
  - repeat constructor; simpl; intuition discriminate.
  - left; reflexivity.
  - right; left; reflexivity.
  - vm_compute; reflexivity.
Defined.

Lemma split_without_sep (sep : ascii) (s : string) :
  count_char sep s = 0%nat -> split sep s = [s].
Proof.
  induction s as [|c rest IH]; simpl; [reflexivity|].
  destruct (Ascii.eqb c sep); [discriminate|].
  intros H. now rewrite (IH H).
Qed.

Lemma uint_text_no_comma (d : Decimal.uint) :
  count_char "," (NilEmpty.string_of_uint d) = 0%nat.
Proof. induction d; simpl; assumption || reflexivity. Qed.

Lemma str_int_no_comma (n : Z) : count_char "," (str_int n) = 0%nat.
Proof.
  unfold str_int. destruct n as [|p|p]; [reflexivity| |];
    cbn [Z.to_int NilZero.string_of_int]; unfold NilZero.string_of_uint;
    destruct (Pos.to_uint p) eqn:Hp; try reflexivity;
    rewrite <- Hp; simpl; apply uint_text_no_comma.
Qed.

Lemma string_append_assoc (a b c : string) : (a ++ b) ++ c = a ++ (b ++ c).
Proof. induction a as [|x a IH]; simpl; [reflexivity|now rewrite IH]. Qed.

Lemma split_wait_line (id timeout : Z) :
  split "," (wait_line id timeout) =
    ["wait_complete " ++ str_int id; " " ++ str_int timeout].
Proof.
  unfold wait_line.
  change ("wait_complete " ++ str_int id ++ ", " ++ str_int timeout)
    with ("wait_complete " ++ (str_int id ++ String "," (" " ++ str_int timeout))).
  rewrite <- string_append_assoc, split_app.
  rewrite !split_without_sep; [reflexivity| |]; simpl; apply str_int_no_comma.
Qed.

(** X16.  The wait command line is an unambiguous encoding: two
    [wait_complete] lines are equal only when they carry the same
    correlation id and the same timeout. *)
Theorem wait_line_determines_id_and_timeout (id timeout id' timeout' : Z) :
  wait_line id timeout = wait_line id' timeout' ->
  id = id' /\ timeout = timeout'.
Proof.
  intros H. apply (f_equal (split ",")) in H.
  rewrite !split_wait_line in H. injection H as Hid Htimeout.
  split.
  - apply (f_equal Py.int) in Hid.
    rewrite !int_of_str_int in Hid. now injection Hid.
  - apply (f_equal Py.int) in Htimeout.
    rewrite !int_of_str_int in Htimeout. now injection Htimeout.
Qed.

Lemma wait_line_determines_id_and_timeout_witness :
  wait_line 7 30 = "wait_complete 7, 30" /\ (7 = 7 /\ 30 = 30).
Proof.
  split; [reflexivity|].
  exact (wait_line_determines_id_and_timeout 7 30 7 30 eq_refl).
Defined.

(** X17.  [list] returns the empty list exactly when its exchange did not
    go through: the send raised, the read raised, or the reply did not
    validate. *)
Theorem list_empty_iff_exchange_failed `{X : Externals} (env : Env) :
  returned list_ env = Ok [] <->
  (forall line resp, ~ acknowledged env [] "loader:vc:list" line resp).
Proof.
  split.
  - intros Hnil line resp H. unfold returned in Hnil.
    rewrite (list_run_acknowledged env line resp H) in Hnil.
    injection Hnil as Hnil. now apply split_not_nil in Hnil.
  - intros Hno. unfold returned, run, list_, try_except.
    ask; [reflexivity|]. ask; [|reflexivity]. ask; [|reflexivity].
    exfalso. eapply Hno. repeat split; eassumption.
Qed.

Lemma list_empty_iff_exchange_failed_witness :
  returned (list_ (X := Sample.externals)) (Sample.replying ["3,4,A,B"]) = Ok [].
Proof.
  apply (proj2 (list_empty_iff_exchange_failed (X := Sample.externals)
                  (Sample.replying ["3,4,A,B"]))).
  intros line resp (_ & Hread & Hcheck).
  injection Hread as <-. discriminate Hcheck.
Defined.
